(** * mxclient/room.go: the per-room timeline cache and its page arithmetic

    A shallow embedding of [Room] (package [mxclient]) and of the functions
    that grow its cached timeline and cut pages out of it:
    [concatBackpagination], [concatForwardPagination], [findEventIndex],
    [getBackwardEventRange], [getForwardEventRange], [GetEventPage] and
    [NewRoom].

    Conventions.
    - Go's [int] is taken at its 64-bit width and modelled by [Z] with the
      two's-complement wrap-around of [+], [-] and unary [-] written out
      ([GoInt.add], [GoInt.sub], [GoInt.neg]).
    - A method with a pointer receiver becomes a function that returns the
      updated receiver.  A [Room] holds a pointer to the [Client] it shares
      with the other rooms; that shared cell is threaded next to the room.
    - A slice expression that Go would abort on evaluates to [None].
    - The network and the room-state reducer are outside room.go: the
      network is an arbitrary deterministic server behind the [Client],
      the reducer an interface ([Reducer]).  [ForwardPaginateRoom] and
      [RoomInfo] only forward to them and are left out. *)

From Stdlib Require Import ZArith List String Bool Lia.
From Equations Require Import Equations.
Import ListNotations.

Local Open Scope string_scope.
Local Open Scope list_scope.
Local Open Scope Z_scope.

(** ** Machine integers *)

Module GoInt.

Definition max_int : Z := 9223372036854775807.
Definition min_int : Z := -9223372036854775808.
Definition modulus : Z := 18446744073709551616.

(** The values an [int] variable can hold. *)
Definition is_int (z : Z) : Prop := min_int <= z <= max_int.

(** Reduction of a mathematical result to the representable range. *)
Definition wrap (z : Z) : Z := (z - min_int) mod modulus + min_int.

Definition add (a b : Z) : Z := wrap (a + b).
Definition sub (a b : Z) : Z := wrap (a - b).
Definition neg (a : Z) : Z := wrap (- a).

End GoInt.

(** ** Slices *)

(** [len(s)]. *)
Definition len {A : Type} (s : list A) : Z := Z.of_nat (List.length s).

(** The elements at positions [low], ..., [high - 1]. *)
Definition sub_seq {A : Type} (s : list A) (low high : Z) : list A :=
  firstn (Z.to_nat (high - low)) (skipn (Z.to_nat low) s).

(** The slice expression [s[low:high]].  Go aborts unless
    [0 <= low <= high <= cap(s)]; the model takes [cap(s) = len(s)], so a
    [Some] result is a result of the Go expression whatever the capacity,
    and the [None] results used below all have [low < 0] or [high < low],
    where Go aborts whatever the capacity. *)
Definition slice {A : Type} (s : list A) (low high : Z) : option (list A) :=
  if (0 <=? low) && (low <=? high) && (high <=? len s)
  then Some (sub_seq s low high)
  else None.

(** ** package utils *)

Module utils.

(** Modelled from the spec: [utils.Min] is not part of the sources at
    hand; the spec writes [min] for it. *)
Definition Min (a b : Z) : Z := if a <? b then a else b.

(** Modelled from the spec: [utils.Max] is not part of the sources at
    hand; the spec writes [max] for it. *)
Definition Max (a b : Z) : Z := if a >? b then a else b.

(** Modelled from the spec: [utils.Bound] is not part of the sources at
    hand; the spec writes [clamp(value, low, high)] for
    [utils.Bound(low, value, high)]. *)
Definition Bound (low value high : Z) : Z := Max low (Min value high).

End utils.

(** ** package gomatrix: events *)

Module gomatrix.

(** The fields of [gomatrix.Event] that room.go reads, and the payload. *)
Record Event : Type := {
  Type_ : string;
  ID : string;
  Content : string
}.

End gomatrix.

Abbreviation Event := gomatrix.Event.

(** [event.Type == "m.room.redaction"]. *)
Definition is_redaction (event : Event) : bool :=
  String.eqb (gomatrix.Type_ event) "m.room.redaction".

(** ** The client and the homeserver behind it *)

Inductive result (A : Type) : Type :=
| Ok (a : A)
| Err (msg : string).
Arguments Ok {A} a.
Arguments Err {A} msg.

(** A request that went out on the wire. *)
Inductive Request : Type :=
| InitialSyncRequest (roomID : string) (limit : Z)
| MessagesRequest (roomID from : string) (limit : Z).

(** [resp.Messages] of an initial sync, and the answer to a history
    request. *)
Record RespMessages : Type := {
  Start : string;
  Chunk : list Event;
  End_ : string
}.

Record RespInitialSync : Type := {
  Messages : RespMessages;
  State : list Event
}.

(** The homeserver is an arbitrary deterministic environment: what it
    answers may depend on every request sent so far.  [sent] is the log of
    those requests, oldest first. *)
Record Client : Type := {
  serveInitialSync : list Request -> string -> Z -> result RespInitialSync;
  serveMessages : list Request -> string -> string -> Z -> result RespMessages;
  sent : list Request
}.

Definition record_request (m : Client) (q : Request) : Client :=
  {| serveInitialSync := serveInitialSync m;
     serveMessages := serveMessages m;
     sent := sent m ++ [q] |}.

(** [m.RoomInitialSync(roomID, limit)]. *)
Definition RoomInitialSync (m : Client) (roomID : string) (limit : Z)
  : Client * result RespInitialSync :=
  (record_request m (InitialSyncRequest roomID limit),
   serveInitialSync m (sent m) roomID limit).

(** The paginated history fetch towards older events. *)
Definition FetchOlder (m : Client) (roomID from : string) (limit : Z)
  : Client * result RespMessages :=
  (record_request m (MessagesRequest roomID from limit),
   serveMessages m (sent m) roomID from limit).

(** ** The room-state reducer *)

(** [RoomState], [NewRoomState] and [UpdateOnEvent] live in another file of
    the package; room.go only calls them, so they are an interface here. *)
Class Reducer : Type := {
  RoomState : Type;
  NewRoomState : Client -> RoomState;
  UpdateOnEvent : RoomState -> Event -> bool -> RoomState
}.

Section Room.

Context {reducer : Reducer}.

(** ** type Room *)

Record Room : Type := {
  ID : string;
  backPaginationToken : string;
  forwardPaginationToken : string;
  eventList : list Event;
  latestRoomState : RoomState;
  hasInitialSynced : bool
}.

Definition set_eventList (r : Room) (l : list Event) : Room :=
  {| ID := ID r;
     backPaginationToken := backPaginationToken r;
     forwardPaginationToken := forwardPaginationToken r;
     eventList := l;
     latestRoomState := latestRoomState r;
     hasInitialSynced := hasInitialSynced r |}.

Definition set_backPaginationToken (r : Room) (t : string) : Room :=
  {| ID := ID r;
     backPaginationToken := t;
     forwardPaginationToken := forwardPaginationToken r;
     eventList := eventList r;
     latestRoomState := latestRoomState r;
     hasInitialSynced := hasInitialSynced r |}.

Definition set_forwardPaginationToken (r : Room) (t : string) : Room :=
  {| ID := ID r;
     backPaginationToken := backPaginationToken r;
     forwardPaginationToken := t;
     eventList := eventList r;
     latestRoomState := latestRoomState r;
     hasInitialSynced := hasInitialSynced r |}.

Definition set_latestRoomState (r : Room) (s : RoomState) : Room :=
  {| ID := ID r;
     backPaginationToken := backPaginationToken r;
     forwardPaginationToken := forwardPaginationToken r;
     eventList := eventList r;
     latestRoomState := s;
     hasInitialSynced := hasInitialSynced r |}.

(** ** Growing the timeline *)

(** One iteration of the loop of [concatBackpagination]. *)
Definition concatBackpagination_step (r : Room) (event : Event) : Room :=
  if is_redaction event
  then r
  else set_eventList r (eventList r ++ [event]).

Definition concatBackpagination
    (r : Room) (oldEvents : list Event) (newToken : string) : Room :=
  set_backPaginationToken
    (fold_left concatBackpagination_step oldEvents r) newToken.

(** One iteration of the loop of [concatForwardPagination]. *)
Definition concatForwardPagination_step (r : Room) (event : Event) : Room :=
  if is_redaction event
  then r
  else
    let r1 :=
      set_latestRoomState r (UpdateOnEvent (latestRoomState r) event false) in
    set_eventList r1 ([event] ++ eventList r1).

Definition concatForwardPagination
    (r : Room) (newEvents : list Event) (newToken : string) : Room :=
  set_forwardPaginationToken
    (fold_left concatForwardPagination_step newEvents r) newToken.

Definition GetTokens (r : Room) : string * string :=
  (backPaginationToken r, forwardPaginationToken r).

(** Modelled from the spec: [Client.backpaginateRoom] is not part of the
    sources at hand.  The spec's [ExtendOlder(count)] calls the fetch
    collaborator with the current older-edge cursor and the requested
    count; on success the fetched events go through
    [concatBackpagination] together with the returned cursor and the
    count of events actually appended is returned; on failure the room
    is unchanged and the error is returned. *)
Definition backpaginateRoom (m : Client) (r : Room) (amount : Z)
  : Client * Room * (Z * option string) :=
  let '(m', answer) := FetchOlder m (ID r) (backPaginationToken r) amount in
  match answer with
  | Err e => (m', r, (0, Some e))
  | Ok resp =>
      let r' := concatBackpagination r (Chunk resp) (End_ resp) in
      (m', r', (len (eventList r') - len (eventList r), None))
  end.

(** ** Locating an anchor *)

(** The [range] loop of [findEventIndex]: the index of the first event
    whose [ID] is [anchor], counting from [index]. *)
Fixpoint scan (events : list Event) (anchor : string) (index : Z)
  : option Z :=
  match events with
  | [] => None
  | event :: rest =>
      if String.eqb (gomatrix.ID event) anchor
      then Some index
      else scan rest anchor (index + 1)
  end.

Equations findEventIndex
    (m : Client) (r : Room) (anchor : string) (backpaginate : bool)
  : Client * Room * (Z * bool) by wf (Nat.b2n backpaginate) lt :=
  findEventIndex m r anchor backpaginate with scan (eventList r) anchor 0 := {
    | Some index := (m, r, (index, true));
    | None with backpaginate := {
      | false := (m, r, (0, false));
      | true with backpaginateRoom m r 100 := {
        | (m', r', (numNew, _)) with numNew >? 0 := {
          | true := findEventIndex m' r' anchor false;
          | false := (m', r', (0, false)) } } } }.

(** ** Cutting a page *)

Definition overcompensateBackpaginationBy : Z := 32.

Definition getBackwardEventRange
    (m : Client) (r : Room) (anchorIndex offset number : Z)
  : Client * Room * option (list Event) :=
  let length := len (eventList r) in
  let delta :=
    GoInt.add (GoInt.add (GoInt.add anchorIndex offset) number)
              overcompensateBackpaginationBy in
  let '(m1, r1, length1) :=
    if delta >=? length then
      let '(m', r', (numNew, err)) :=
        backpaginateRoom m r (GoInt.sub delta length) in
      match err with
      | None => (m', r', GoInt.add length numNew)
      | Some _ => (m', r', length)
      end
    else (m, r, length) in
  let startIndex := utils.Min (GoInt.add anchorIndex offset) length1 in
  (m1, r1,
   slice (eventList r1) startIndex
         (utils.Min (GoInt.add startIndex number) length1)).

Definition getForwardEventRange (r : Room) (index offset number : Z)
  : option (list Event) :=
  let length := len (eventList r) in
  let topIndex :=
    utils.Bound 0 (GoInt.sub (GoInt.add index number) offset) length in
  slice (eventList r) (utils.Max (GoInt.sub topIndex number) 0) topIndex.

Definition GetState (r : Room) : RoomState := latestRoomState r.

(** What a call of [GetEventPage] ends in: its two results, or a run-time
    panic of a slice expression. *)
Inductive outcome : Type :=
| Returns (events : list Event) (err : option string)
| Panics.

Definition of_range (events : option (list Event)) : outcome :=
  match events with
  | Some page => Returns page None
  | None => Panics
  end.

Definition GetEventPage
    (m : Client) (r : Room) (anchor : string) (offset pageSize : Z)
  : Client * Room * outcome :=
  let '(m1, r1, resolved) :=
    if negb (String.eqb anchor "") then
      let '(m', r', (index, found)) := findEventIndex m r anchor false in
      if found then (m', r', Some index) else (m', r', None)
    else (m, r, Some 0) in
  match resolved with
  | None => (m1, r1, Returns [] (Some "Could not find event"))
  | Some anchorIndex =>
      if offset >=? 0 then
        let '(m2, r2, events) :=
          getBackwardEventRange m1 r1 anchorIndex offset pageSize in
        (m2, r2, of_range events)
      else
        (m1, r1,
         of_range
           (getForwardEventRange r1 anchorIndex (GoInt.neg offset) pageSize))
  end.

(** ** Attaching a room *)

Definition RoomInitialSyncLimit : Z := 256.

(** One iteration of the filtering loop of [NewRoom]. *)
Definition NewRoom_step (filteredEventList : list Event) (event : Event)
  : list Event :=
  if negb (String.eqb (gomatrix.Type_ event) "m.room.redaction")
  then filteredEventList
  else [event] ++ filteredEventList.

Definition NewRoom (m : Client) (roomID : string)
  : Client * result Room :=
  let '(m', answer) := RoomInitialSync m roomID RoomInitialSyncLimit in
  match answer with
  | Err e => (m', Err e)
  | Ok resp =>
      let filteredEventList :=
        fold_left NewRoom_step (Chunk (Messages resp)) [] in
      let newRoom :=
        {| ID := roomID;
           forwardPaginationToken := End_ (Messages resp);
           backPaginationToken := Start (Messages resp);
           eventList := filteredEventList;
           latestRoomState := NewRoomState m';
           hasInitialSynced := false |} in
      (m',
       Ok (fold_left
             (fun room event =>
                set_latestRoomState room
                  (UpdateOnEvent (latestRoomState room) event true))
             (State resp) newRoom))
  end.

End Room.

(** * Reading the code's results *)

(** ** Deliveries *)

(** The events of a delivery that are not redactions. *)
Definition survivors (events : list Event) : list Event :=
  filter (fun event => negb (is_redaction event)) events.

(** The events of a delivery that are redactions. *)
Definition redactions (events : list Event) : list Event :=
  filter is_redaction events.

(** Every slice of a running Go program has a length that an [int] holds;
    the lists of the model have no such limit, so it is stated where the
    code adds to a length. *)
Definition fits {A : Type} (s : list A) : Prop := len s <= GoInt.max_int.

(** ** Pages in exact arithmetic *)

(** The depth a backward request asks the cache to have. *)
Definition neededDepth (anchorIndex offset count : Z) : Z :=
  anchorIndex + offset + count + 32.

(** The page [[startIndex, endIndex)] of a backward request. *)
Definition backward_start (timeline : list Event) (anchorIndex offset : Z)
  : Z :=
  Z.min (anchorIndex + offset) (len timeline).

Definition backward_end (timeline : list Event) (anchorIndex offset count : Z)
  : Z :=
  Z.min (backward_start timeline anchorIndex offset + count) (len timeline).

Definition backward_page (timeline : list Event) (anchorIndex offset count : Z)
  : list Event :=
  sub_seq timeline (backward_start timeline anchorIndex offset)
          (backward_end timeline anchorIndex offset count).

(** A backward request whose index arithmetic stays inside [int]. *)
Definition backward_exact (anchorIndex offset count : Z) : Prop :=
  0 <= anchorIndex /\ 0 <= offset /\ 0 <= count /\
  neededDepth anchorIndex offset count <= GoInt.max_int.

(** The page [[bottomIndex, topIndex)] of a forward request. *)
Definition forward_top
    (timeline : list Event) (anchorIndex fwdOffset count : Z) : Z :=
  Z.max 0 (Z.min (anchorIndex + count - fwdOffset) (len timeline)).

Definition forward_bottom
    (timeline : list Event) (anchorIndex fwdOffset count : Z) : Z :=
  Z.max (forward_top timeline anchorIndex fwdOffset count - count) 0.

Definition forward_page
    (timeline : list Event) (anchorIndex fwdOffset count : Z) : list Event :=
  sub_seq timeline (forward_bottom timeline anchorIndex fwdOffset count)
          (forward_top timeline anchorIndex fwdOffset count).

(** ** Requests and answers *)

Section Readings.

Context {reducer : Reducer}.
Implicit Types (m : Client) (r : Room).

(** The history request [backpaginateRoom(r, amount)] sends, and what the
    server answers to it. *)
Definition older_request r (amount : Z) : Request :=
  MessagesRequest (ID r) (backPaginationToken r) amount.

Definition older_answer m r (amount : Z) : result RespMessages :=
  serveMessages m (sent m) (ID r) (backPaginationToken r) amount.

(** The anchor index [GetEventPage] works with. *)
Definition anchor_index r (anchor : string) : option Z :=
  if String.eqb anchor "" then Some 0 else scan (eventList r) anchor 0.

(** The requests a backward request sends. *)
Definition backward_requests r (anchorIndex offset count : Z)
  : list Request :=
  let length := len (eventList r) in
  if neededDepth anchorIndex offset count >=? length
  then [older_request r (neededDepth anchorIndex offset count - length)]
  else [].

(** The events a backward request adds to the timeline: the survivors of
    the chunk the server answers with, when the request fetches and the
    fetch succeeds. *)
Definition backward_appended m r (anchorIndex offset count : Z)
  : list Event :=
  let length := len (eventList r) in
  if neededDepth anchorIndex offset count >=? length then
    match older_answer m r (neededDepth anchorIndex offset count - length) with
    | Ok resp => survivors (Chunk resp)
    | Err _ => []
    end
  else [].

End Readings.

(** ** Sample rooms and servers *)

(** A reducer that only records the calls it receives. *)
#[export] Instance call_log : Reducer :=
  {| RoomState := list (Event * bool);
     NewRoomState := fun _ => [];
     UpdateOnEvent := fun s event initial => s ++ [(event, initial)] |}.

Definition message (id : string) : Event :=
  {| gomatrix.Type_ := "m.room.message";
     gomatrix.ID := id;
     gomatrix.Content := "" |}.

Definition redaction (id : string) : Event :=
  {| gomatrix.Type_ := "m.room.redaction";
     gomatrix.ID := id;
     gomatrix.Content := "" |}.

(** A room caching the given events, older-edge cursor ["T1"]. *)
Definition room_with (events : list Event) : Room :=
  {| ID := "!room:example.org";
     backPaginationToken := "T1";
     forwardPaginationToken := "T0";
     eventList := events;
     latestRoomState := [];
     hasInitialSynced := false |}.

(** A server that answers every history request with the same chunk. *)
Definition server_with (chunk : list Event) : Client :=
  {| serveInitialSync := fun _ _ _ =>
       Ok {| Messages := {| Start := "T1"; Chunk := chunk; End_ := "T0" |};
             State := [message "$state"] |};
     serveMessages := fun _ _ _ _ =>
       Ok {| Start := "T1"; Chunk := chunk; End_ := "T2" |};
     sent := [] |}.

(** A server that is out of reach. *)
Definition server_down : Client :=
  {| serveInitialSync := fun _ _ _ => Err "connection refused";
     serveMessages := fun _ _ _ _ => Err "connection refused";
     sent := [] |}.

Definition two_cached : Room := room_with [message "$x"; message "$y"].

Definition three_cached : Room :=
  room_with [message "$x"; message "$y"; message "$z"].

Definition ten_cached : Room :=
  room_with [message "$0"; message "$1"; message "$2"; message "$3";
             message "$4"; message "$5"; message "$6"; message "$7";
             message "$8"; message "$9"].

(** Thirty-two cached events: the needed depth of the request
    [("", 0, 0)]. *)
Definition exact_depth_cached : Room :=
  room_with (repeat (message "$cached") 32).

Definition older_chunk : list Event :=
  [message "$10"; redaction "$r"; message "$11"; message "$12"].

(** * The rest of room.go *)

(** ** RoomInfo *)

Module info.

(** [type RoomInfo struct], over the type of avatar references. *)
Record RoomInfo (MXCURL : Type) : Type := {
  RoomID : string;
  Name : string;
  Topic : string;
  AvatarURL : MXCURL;
  NumMemberEvents : Z;
  NumMembers : Z;
  NumServers : Z
}.

Arguments RoomID {MXCURL} _.
Arguments Name {MXCURL} _.
Arguments Topic {MXCURL} _.
Arguments AvatarURL {MXCURL} _.
Arguments NumMemberEvents {MXCURL} _.
Arguments NumMembers {MXCURL} _.
Arguments NumServers {MXCURL} _.

End info.

(** What [RoomInfo] reads from a [RoomState]: its fields [Topic] and
    [AvatarURL] and its methods [CalculateName], [GetNumMemberEvents],
    [NumMembers] and [Servers], the collection of which [RoomInfo] reports
    the length.  They live in another file of the package, like the
    reducer. *)
Class RoomStateReader {reducer : Reducer} : Type := {
  MXCURL : Type;
  CalculateName : RoomState -> string;
  Topic : RoomState -> string;
  AvatarURL : RoomState -> MXCURL;
  GetNumMemberEvents : RoomState -> Z;
  NumMembers : RoomState -> Z;
  Servers : RoomState -> list string
}.

Section RoomInfo.

Context {reducer : Reducer} {reader : RoomStateReader}.

Definition RoomInfo (r : Room) : info.RoomInfo MXCURL :=
  {| info.RoomID := ID r;
     info.Name := CalculateName (latestRoomState r);
     info.Topic := Topic (latestRoomState r);
     info.AvatarURL := AvatarURL (latestRoomState r);
     info.NumMemberEvents := GetNumMemberEvents (latestRoomState r);
     info.NumMembers := NumMembers (latestRoomState r);
     info.NumServers := len (Servers (latestRoomState r)) |}.

End RoomInfo.

(** ** Timelines without redactions *)

(** No event of the timeline is a redaction. *)
Definition no_redaction (timeline : list Event) : Prop :=
  Forall (fun event => is_redaction event = false) timeline.

(** The room [NewRoom] builds from a successful initial sync. *)
Definition synced_room {reducer : Reducer}
    (m : Client) (roomID : string) (resp : RespInitialSync) : Room :=
  {| ID := roomID;
     backPaginationToken := Start (Messages resp);
     forwardPaginationToken := End_ (Messages resp);
     eventList := rev (redactions (Chunk (Messages resp)));
     latestRoomState :=
       fold_left (fun s event => UpdateOnEvent s event true)
                 (State resp) (NewRoomState m);
     hasInitialSynced := false |}.

(** A reader of the call log: the name is the ID of the last state event
    applied, the member events are the applications. *)
#[export] Instance call_log_reader : RoomStateReader (reducer := call_log) :=
  {| MXCURL := string;
     CalculateName := fun s =>
       match rev s with
       | (event, _) :: _ => gomatrix.ID event
       | [] => ""
       end;
     Topic := fun _ => "";
     AvatarURL := fun _ => "";
     GetNumMemberEvents := fun s => len s;
     NumMembers := fun s => len s;
     Servers := fun _ => [] |}.

(** A server whose history has the given chunk and that answers the
    initial sync with [older_chunk]. *)
Definition server_synced : Client :=
  {| serveInitialSync := fun _ _ _ =>
       Ok {| Messages :=
               {| Start := "T1"; Chunk := older_chunk; End_ := "T0" |};
             State := [message "$state"] |};
     serveMessages := fun _ _ _ _ =>
       Ok {| Start := "T1"; Chunk := [message "$13"]; End_ := "T2" |};
     sent := [] |}.


(** * Properties *)

Ltac int_bounds :=
  unfold backward_exact, neededDepth, fits, GoInt.is_int,
    GoInt.min_int, GoInt.max_int in *.


(** ** Machine arithmetic *)

Module GoIntFacts.
Import GoInt.

Lemma wrap_small (z : Z) : is_int z -> wrap z = z.
Proof.
  unfold is_int, wrap, min_int, max_int, modulus. intros Hz.
  rewrite Z.mod_small by lia. lia.
Qed.

Lemma wrap_is_int (z : Z) : is_int (wrap z).
Proof.
  unfold is_int, wrap, min_int, max_int, modulus.
  pose proof (Z.mod_pos_bound (z - -9223372036854775808) 18446744073709551616).
  lia.
Qed.

(** [wrap] only depends on the residue modulo [2^64]. *)
Lemma wrap_shift (z k : Z) : wrap (z + k * modulus) = wrap z.
Proof.
  unfold wrap.
  replace (z + k * modulus - min_int) with (z - min_int + k * modulus) by lia.
  now rewrite Z.mod_add by (unfold modulus; lia).
Qed.

Lemma wrap_residue (z : Z) : exists k, wrap z = z + k * modulus.
Proof.
  unfold wrap. exists (- ((z - min_int) / modulus)).
  pose proof (Z.div_mod (z - min_int) modulus) as E.
  unfold modulus in *. lia.
Qed.

Lemma wrap_add_l (a b : Z) : wrap (wrap a + b) = wrap (a + b).
Proof.
  destruct (wrap_residue a) as [k ->].
  replace (a + k * modulus + b) with (a + b + k * modulus) by lia.
  apply wrap_shift.
Qed.

Lemma wrap_sub_l (a b : Z) : wrap (wrap a - b) = wrap (a - b).
Proof. apply (wrap_add_l a (- b)). Qed.

Lemma wrap_sub_r (a b : Z) : wrap (a - wrap b) = wrap (a - b).
Proof.
  destruct (wrap_residue b) as [k ->].
  replace (a - (b + k * modulus)) with (a - b + (- k) * modulus) by lia.
  apply wrap_shift.
Qed.

Lemma add_exact (a b : Z) : is_int (a + b) -> add a b = a + b.
Proof. apply wrap_small. Qed.

Lemma sub_exact (a b : Z) : is_int (a - b) -> sub a b = a - b.
Proof. apply wrap_small. Qed.

(** The sum [anchorIndex + offset + number + 32] as Go evaluates it. *)
Lemma add4_wrap (a b c d : Z) :
  add (add (add a b) c) d = wrap (a + b + c + d).
Proof.
  unfold add. rewrite wrap_add_l.
  replace (wrap (a + b) + c + d) with (wrap (a + b) + (c + d)) by lia.
  rewrite wrap_add_l. f_equal. lia.
Qed.

(** [index + number - (-offset)] as Go evaluates it. *)
Lemma add_sub_neg_wrap (a b c : Z) :
  sub (add a b) (neg c) = wrap (a + b + c).
Proof.
  unfold sub, add, neg. rewrite wrap_sub_l, wrap_sub_r. f_equal. lia.
Qed.

End GoIntFacts.

(** ** utils *)

Lemma Min_spec (a b : Z) : utils.Min a b = Z.min a b.
Proof. unfold utils.Min. destruct (Z.ltb_spec a b); lia. Qed.

Lemma Max_spec (a b : Z) : utils.Max a b = Z.max a b.
Proof.
  unfold utils.Max. rewrite Z.gtb_ltb. destruct (Z.ltb_spec b a); lia.
Qed.

Lemma Bound_spec (low value high : Z) :
  utils.Bound low value high = Z.max low (Z.min value high).
Proof. unfold utils.Bound. now rewrite Max_spec, Min_spec. Qed.

(** ** Slices *)

Section SliceFacts.

Context {A : Type}.
Implicit Types s t : list A.

Lemma len_nonneg s : 0 <= len s.
Proof. unfold len. lia. Qed.

Lemma len_app s t : len (s ++ t) = len s + len t.
Proof. unfold len. rewrite length_app. lia. Qed.

Lemma len_nil : len (@nil A) = 0.
Proof. reflexivity. Qed.

Lemma slice_in_range s low high :
  0 <= low <= high -> high <= len s ->
  slice s low high = Some (sub_seq s low high).
Proof.
  intros [H0 H1] H2. unfold slice.
  destruct (Z.leb_spec 0 low); [|lia].
  destruct (Z.leb_spec low high); [|lia].
  destruct (Z.leb_spec high (len s)); [reflexivity|lia].
Qed.

Lemma slice_Some_iff s low high :
  (exists page, slice s low high = Some page) <->
  0 <= low <= high /\ high <= len s.
Proof.
  unfold slice.
  destruct (Z.leb_spec 0 low), (Z.leb_spec low high),
    (Z.leb_spec high (len s)); cbn;
    (split; [intros [page E]; try discriminate; lia
            | intros ?; try lia; eauto]).
Qed.

Lemma slice_None_iff s low high :
  slice s low high = None <-> low < 0 \/ high < low \/ len s < high.
Proof.
  unfold slice.
  destruct (Z.leb_spec 0 low), (Z.leb_spec low high),
    (Z.leb_spec high (len s)); cbn;
    (split; [intros E; try discriminate; lia | intros ?; try lia; auto]).
Qed.

(** A page is a contiguous run of the timeline: what lies before it has
    [low] elements. *)
Lemma sub_seq_contiguous s low high :
  0 <= low <= high -> high <= len s ->
  exists before after,
    s = before ++ sub_seq s low high ++ after /\
    len before = low /\ len (sub_seq s low high) = high - low.
Proof.
  intros [H0 H1] H2. unfold sub_seq, len in *.
  exists (firstn (Z.to_nat low) s),
         (skipn (Z.to_nat (high - low)) (skipn (Z.to_nat low) s)).
  rewrite !firstn_skipn. repeat split.
  - rewrite length_firstn. lia.
  - rewrite length_firstn, length_skipn. lia.
Qed.

Lemma sub_seq_len_le s low high :
  0 <= high - low -> len (sub_seq s low high) <= high - low.
Proof.
  intros H. unfold sub_seq, len. rewrite length_firstn. lia.
Qed.

(** Cutting inside a prefix does not look at what was appended. *)
Lemma sub_seq_app_l s t low high :
  0 <= low <= high -> high <= len s ->
  sub_seq (s ++ t) low high = sub_seq s low high.
Proof.
  intros [H0 H1] H2. unfold sub_seq, len in *.
  rewrite skipn_app, firstn_app, length_skipn.
  replace (Z.to_nat (high - low) - (List.length s - Z.to_nat low))%nat
    with 0%nat by lia.
  replace (Z.to_nat low - List.length s)%nat with 0%nat by lia.
  cbn. now rewrite app_nil_r.
Qed.

End SliceFacts.

Section RoomFacts.

Context {reducer : Reducer}.
Implicit Types (m : Client) (r : Room).

Lemma set_eventList_same r : set_eventList r (eventList r) = r.
Proof. now destruct r. Qed.

Lemma concatBackpagination_loop oldEvents : forall r,
  fold_left concatBackpagination_step oldEvents r
  = set_eventList r (eventList r ++ survivors oldEvents).
Proof.
  induction oldEvents as [|event rest IH]; intros r; cbn.
  - now rewrite app_nil_r, set_eventList_same.
  - rewrite IH. unfold concatBackpagination_step.
    destruct (is_redaction event); cbn; [reflexivity|].
    unfold set_eventList; cbn. now rewrite <- app_assoc.
Qed.

Lemma concatBackpagination_eq r oldEvents newToken :
  concatBackpagination r oldEvents newToken
  = set_backPaginationToken
      (set_eventList r (eventList r ++ survivors oldEvents)) newToken.
Proof.
  unfold concatBackpagination. now rewrite concatBackpagination_loop.
Qed.

Lemma concatForwardPagination_loop newEvents : forall r,
  fold_left concatForwardPagination_step newEvents r
  = set_eventList
      (set_latestRoomState r
         (fold_left (fun s event => UpdateOnEvent s event false)
                    (survivors newEvents) (latestRoomState r)))
      (rev (survivors newEvents) ++ eventList r).
Proof.
  induction newEvents as [|event rest IH]; intros r; cbn.
  - now destruct r.
  - rewrite IH. unfold concatForwardPagination_step.
    destruct (is_redaction event); cbn; [reflexivity|].
    unfold set_eventList, set_latestRoomState; cbn.
    now rewrite <- app_assoc.
Qed.

(** *** [backpaginateRoom] *)

Lemma backpaginateRoom_err m r amount e :
  older_answer m r amount = Err e ->
  backpaginateRoom m r amount
  = (record_request m (older_request r amount), r, (0, Some e)).
Proof.
  unfold older_answer, backpaginateRoom, FetchOlder. now intros ->.
Qed.

Lemma backpaginateRoom_ok m r amount resp :
  older_answer m r amount = Ok resp ->
  backpaginateRoom m r amount
  = (record_request m (older_request r amount),
     concatBackpagination r (Chunk resp) (End_ resp),
     (len (survivors (Chunk resp)), None)).
Proof.
  unfold older_answer, backpaginateRoom, FetchOlder. intros ->.
  rewrite concatBackpagination_eq. cbn. rewrite len_app.
  do 3 f_equal. lia.
Qed.

(** *** [findEventIndex] *)

Lemma scan_bounds events anchor : forall index found,
  scan events anchor index = Some found ->
  index <= found < index + len events.
Proof.
  induction events as [|event rest IH]; intros index found; cbn [scan].
  - discriminate.
  - replace (len (event :: rest)) with (1 + len rest)
      by (unfold len; cbn [List.length]; lia).
    pose proof (len_nonneg rest).
    destruct (String.eqb _ _).
    + intros [= <-]. lia.
    + intros E. apply IH in E. lia.
Qed.

Lemma scan_None events anchor : forall index,
  scan events anchor index = None <->
  forall event, In event events -> gomatrix.ID event <> anchor.
Proof.
  induction events as [|event rest IH]; intros index; cbn.
  - split; [intros _ ? []|reflexivity].
  - destruct (String.eqb_spec (gomatrix.ID event) anchor) as [E|E].
    + split; [discriminate|]. intros H.
      now destruct (H event (or_introl eq_refl)).
    + rewrite IH. split.
      * intros H e [<-|Hin]; auto.
      * intros H e Hin. apply H. now right.
Qed.

Lemma scan_app_l events more anchor : forall index found,
  scan events anchor index = Some found ->
  scan (events ++ more) anchor index = Some found.
Proof.
  induction events as [|event rest IH]; intros index found; cbn.
  - discriminate.
  - destruct (String.eqb _ _); auto.
Qed.

Lemma findEventIndex_false m r anchor :
  findEventIndex m r anchor false
  = (m, r,
     match scan (eventList r) anchor 0 with
     | Some index => (index, true)
     | None => (0, false)
     end).
Proof.
  simp findEventIndex. destruct (scan (eventList r) anchor 0); now cbn.
Qed.

(** *** [GetEventPage] *)

Lemma GetEventPage_eq m r anchor offset pageSize :
  GetEventPage m r anchor offset pageSize
  = match anchor_index r anchor with
    | None => (m, r, Returns [] (Some "Could not find event"))
    | Some anchorIndex =>
        if offset >=? 0 then
          let '(m2, r2, events) :=
            getBackwardEventRange m r anchorIndex offset pageSize in
          (m2, r2, of_range events)
        else
          (m, r,
           of_range
             (getForwardEventRange r anchorIndex (GoInt.neg offset) pageSize))
    end.
Proof.
  unfold GetEventPage, anchor_index.
  destruct (String.eqb anchor ""); cbn [negb]; [reflexivity|].
  rewrite findEventIndex_false.
  destruct (scan (eventList r) anchor 0); reflexivity.
Qed.

Lemma anchor_index_bounds r anchor anchorIndex :
  anchor_index r anchor = Some anchorIndex ->
  0 <= anchorIndex <= len (eventList r).
Proof.
  unfold anchor_index. pose proof (len_nonneg (eventList r)).
  destruct (String.eqb anchor "").
  - intros [= <-]. lia.
  - intros E. apply scan_bounds in E. lia.
Qed.

End RoomFacts.

(** ** The backward range *)

Section BackwardFacts.

Context {reducer : Reducer}.
Implicit Types (m : Client) (r : Room).

Lemma backward_bounds timeline a o n :
  0 <= a -> 0 <= o -> 0 <= n ->
  0 <= backward_start timeline a o
    <= backward_end timeline a o n /\
  backward_end timeline a o n <= len timeline.
Proof.
  intros. unfold backward_end, backward_start.
  pose proof (len_nonneg timeline). lia.
Qed.

(** The last two lines of [getBackwardEventRange], once the tracked length
    is the length of the timeline. *)
Lemma backward_slice timeline a o n :
  backward_exact a o n -> fits timeline ->
  let startIndex := utils.Min (GoInt.add a o) (len timeline) in
  slice timeline startIndex
        (utils.Min (GoInt.add startIndex n) (len timeline))
  = Some (backward_page timeline a o n).
Proof.
  intros (Ha & Ho & Hn & Hsum) Hfit. cbv zeta.
  pose proof (len_nonneg timeline) as Hlen.
  rewrite (GoIntFacts.add_exact a o) by (int_bounds; lia).
  rewrite Min_spec.
  rewrite GoIntFacts.add_exact by (int_bounds; lia).
  rewrite Min_spec.
  unfold backward_page, backward_end, backward_start.
  apply slice_in_range; lia.
Qed.

Lemma delta_exact a o n :
  backward_exact a o n ->
  GoInt.add (GoInt.add (GoInt.add a o) n) overcompensateBackpaginationBy
  = neededDepth a o n.
Proof.
  intros (Ha & Ho & Hn & Hsum). rewrite GoIntFacts.add4_wrap.
  apply GoIntFacts.wrap_small. int_bounds.
  unfold overcompensateBackpaginationBy. lia.
Qed.

(** Enough events are cached: nothing is fetched. *)
Lemma backward_quiet m r a o n :
  backward_exact a o n -> fits (eventList r) ->
  neededDepth a o n < len (eventList r) ->
  getBackwardEventRange m r a o n
  = (m, r, Some (backward_page (eventList r) a o n)).
Proof.
  intros Hex Hfit Hlt. unfold getBackwardEventRange.
  rewrite delta_exact by assumption.
  rewrite Z.geb_leb.
  destruct (Z.leb_spec (len (eventList r)) (neededDepth a o n)); [lia|].
  now rewrite backward_slice.
Qed.

(** The fetch fails: the page is cut from the timeline as it was. *)
Lemma backward_fetch_err m r a o n e :
  backward_exact a o n -> fits (eventList r) ->
  len (eventList r) <= neededDepth a o n ->
  older_answer m r (neededDepth a o n - len (eventList r)) = Err e ->
  getBackwardEventRange m r a o n
  = (record_request m
       (older_request r (neededDepth a o n - len (eventList r))),
     r, Some (backward_page (eventList r) a o n)).
Proof.
  intros Hex Hfit Hle Hans. unfold getBackwardEventRange.
  rewrite delta_exact by assumption.
  rewrite Z.geb_leb.
  destruct (Z.leb_spec (len (eventList r)) (neededDepth a o n)); [|lia].
  pose proof (len_nonneg (eventList r)).
  rewrite GoIntFacts.sub_exact
    by (destruct Hex as (? & ? & ? & ?); int_bounds; lia).
  rewrite (backpaginateRoom_err _ _ _ _ Hans).
  now rewrite backward_slice.
Qed.

(** The fetch succeeds: the page is cut from the extended timeline. *)
Lemma backward_fetch_ok m r a o n resp :
  backward_exact a o n ->
  fits (eventList r ++ survivors (Chunk resp)) ->
  len (eventList r) <= neededDepth a o n ->
  older_answer m r (neededDepth a o n - len (eventList r)) = Ok resp ->
  getBackwardEventRange m r a o n
  = (record_request m
       (older_request r (neededDepth a o n - len (eventList r))),
     concatBackpagination r (Chunk resp) (End_ resp),
     Some (backward_page (eventList r ++ survivors (Chunk resp)) a o n)).
Proof.
  intros Hex Hfit Hle Hans. unfold getBackwardEventRange.
  rewrite delta_exact by assumption.
  rewrite Z.geb_leb.
  destruct (Z.leb_spec (len (eventList r)) (neededDepth a o n)); [|lia].
  pose proof (len_nonneg (eventList r)).
  pose proof (len_nonneg (survivors (Chunk resp))).
  assert (Hfit' := Hfit). unfold fits in Hfit'. rewrite len_app in Hfit'.
  rewrite GoIntFacts.sub_exact
    by (destruct Hex as (? & ? & ? & ?); int_bounds; lia).
  rewrite (backpaginateRoom_ok _ _ _ _ Hans).
  rewrite (GoIntFacts.add_exact (len (eventList r)))
    by (int_bounds; lia).
  rewrite concatBackpagination_eq.
  cbn [eventList set_backPaginationToken set_eventList].
  rewrite <- len_app.
  now rewrite backward_slice.
Qed.

End BackwardFacts.

(** ** The forward range *)

Section ForwardFacts.

Context {reducer : Reducer}.
Implicit Types (m : Client) (r : Room).

(** A range panics exactly when its bounds are not
    [0 <= low <= high <= len]. *)
Lemma of_range_Panics (timeline : list Event) low high :
  of_range (slice timeline low high) = Panics <->
  ~ (0 <= low <= high /\ high <= len timeline).
Proof.
  destruct (slice timeline low high) as [page|] eqn:E; cbn.
  - split; [discriminate|]. intros H. exfalso. apply H.
    apply slice_Some_iff. eauto.
  - apply slice_None_iff in E. split; [lia|reflexivity].
Qed.

Lemma forward_bounds timeline a f n :
  0 <= n ->
  0 <= forward_bottom timeline a f n <= forward_top timeline a f n /\
  forward_top timeline a f n <= len timeline.
Proof.
  intros. unfold forward_bottom, forward_top.
  pose proof (len_nonneg timeline). lia.
Qed.

(** The page of a request towards newer events whose index arithmetic
    stays inside [int]. *)
Lemma forward_exact r a offset n :
  0 <= a -> offset < 0 -> 0 <= n <= GoInt.max_int ->
  a + n - (- offset) <= GoInt.max_int ->
  GoInt.is_int offset -> fits (eventList r) ->
  getForwardEventRange r a (GoInt.neg offset) n
  = Some (forward_page (eventList r) a (- offset) n).
Proof.
  intros Ha Hoff Hn Hsum Hint Hfit. unfold getForwardEventRange.
  pose proof (len_nonneg (eventList r)) as Hlen.
  rewrite GoIntFacts.add_sub_neg_wrap.
  rewrite GoIntFacts.wrap_small by (int_bounds; lia).
  rewrite Bound_spec.
  replace (a + n + offset) with (a + n - - offset) by lia.
  fold (forward_top (eventList r) a (- offset) n).
  pose proof (forward_bounds (eventList r) a (- offset) n (proj1 Hn))
    as [Hb Ht].
  unfold forward_bottom in Hb.
  rewrite GoIntFacts.sub_exact by (int_bounds; lia).
  rewrite Max_spec.
  unfold forward_page, forward_bottom.
  apply slice_in_range; lia.
Qed.

(** With a count that is not negative the forward slice is in range,
    whatever the index and the offset. *)
Lemma forward_in_range r index offset n :
  0 <= n <= GoInt.max_int -> fits (eventList r) ->
  exists page, getForwardEventRange r index offset n = Some page.
Proof.
  intros Hn Hfit. unfold getForwardEventRange.
  pose proof (len_nonneg (eventList r)) as Hlen.
  rewrite Bound_spec.
  set (top := Z.max 0 (Z.min _ _)).
  assert (0 <= top <= len (eventList r)) by (subst top; lia).
  rewrite GoIntFacts.sub_exact by (int_bounds; lia).
  rewrite Max_spec. apply slice_Some_iff. lia.
Qed.

(** With a negative count the forward slice has its bounds in the wrong
    order. *)
Lemma forward_negative_count r index offset n :
  n < 0 -> len (eventList r) - n <= GoInt.max_int ->
  getForwardEventRange r index offset n = None.
Proof.
  intros Hn Hfit. unfold getForwardEventRange.
  pose proof (len_nonneg (eventList r)) as Hlen.
  rewrite Bound_spec.
  set (top := Z.max 0 (Z.min _ _)).
  assert (0 <= top <= len (eventList r)) by (subst top; lia).
  rewrite GoIntFacts.sub_exact by (int_bounds; lia).
  rewrite Max_spec. apply slice_None_iff. lia.
Qed.

(** With a negative count the backward slice is out of range, fetch or no
    fetch. *)
Lemma backward_negative_count m r a o n :
  n < 0 -> GoInt.min_int <= n ->
  snd (getBackwardEventRange m r a o n) = None.
Proof.
  intros Hn Hmin. unfold getBackwardEventRange.
  set (delta := GoInt.add _ overcompensateBackpaginationBy).
  set (x := GoInt.add a o).
  assert (Hx : GoInt.is_int x) by apply GoIntFacts.wrap_is_int.
  assert (Hcut : forall (timeline : list Event) length1,
    slice timeline (utils.Min x length1)
      (utils.Min (GoInt.add (utils.Min x length1) n) length1) = None).
  { intros timeline length1. apply slice_None_iff.
    rewrite !Min_spec.
    destruct (Z.lt_ge_cases (Z.min x length1) 0) as [Hneg|Hpos]; [now left|].
    right; left.
    rewrite GoIntFacts.add_exact by (int_bounds; lia). lia. }
  destruct (delta >=? len (eventList r)).
  - destruct (backpaginateRoom m r _) as [[m' r'] [numNew [e|]]]; cbn;
      apply Hcut.
  - cbn. apply Hcut.
Qed.

End ForwardFacts.

(** ** Attaching a room *)

Section NewRoomFacts.

Context {reducer : Reducer}.

Lemma NewRoom_loop chunk : forall filteredEventList,
  fold_left NewRoom_step chunk filteredEventList
  = rev (redactions chunk) ++ filteredEventList.
Proof.
  induction chunk as [|event rest IH]; intros acc; cbn; [reflexivity|].
  rewrite IH. unfold NewRoom_step. fold (is_redaction event).
  destruct (is_redaction event); cbn; [|reflexivity].
  now rewrite <- app_assoc.
Qed.

Lemma state_pass_eventList state : forall room : Room,
  eventList
    (fold_left
       (fun room event =>
          set_latestRoomState room
            (UpdateOnEvent (latestRoomState room) event true))
       state room)
  = eventList room.
Proof.
  induction state as [|event rest IH]; intros room; cbn; [reflexivity|].
  now rewrite IH.
Qed.

Lemma redactions_In chunk event :
  In event (redactions chunk) <->
  In event chunk /\ gomatrix.Type_ event = "m.room.redaction".
Proof.
  unfold redactions. rewrite filter_In. unfold is_redaction.
  now rewrite String.eqb_eq.
Qed.

Lemma survivors_In events event :
  In event (survivors events) <->
  In event events /\ gomatrix.Type_ event <> "m.room.redaction".
Proof.
  unfold survivors. rewrite filter_In. unfold is_redaction.
  now rewrite negb_true_iff, String.eqb_neq.
Qed.

Lemma head_of_rev {A : Type} (earlier : list A) (latest : A) (rest : list A) :
  nth_error (rev (earlier ++ [latest]) ++ rest) 0 = Some latest.
Proof. now rewrite rev_app_distr. Qed.

(** C1.  Whatever the initial sync delivers, the timeline of the room that
    [NewRoom] builds consists of the redaction events of the delivered
    chunk and of nothing else, in reverse delivery order: the kept event
    delivered last is at index 0. *)
Theorem NewRoom_keeps_the_redactions :
  forall (m : Client) (roomID : string) (resp : RespInitialSync),
    serveInitialSync m (sent m) roomID RoomInitialSyncLimit = Ok resp ->
    let chunk := Chunk (Messages resp) in
    exists room,
      snd (NewRoom m roomID) = Ok room /\
      eventList room = rev (redactions chunk) /\
      (forall event,
          In event (eventList room) <->
          In event chunk /\ gomatrix.Type_ event = "m.room.redaction") /\
      (forall earlier latest,
          redactions chunk = earlier ++ [latest] ->
          nth_error (eventList room) 0 = Some latest).
Proof.
  intros m roomID resp Hresp chunk.
  unfold NewRoom, RoomInitialSync. rewrite Hresp. cbn [snd].
  eexists. split; [reflexivity|].
  rewrite state_pass_eventList. cbn [eventList].
  rewrite NewRoom_loop, app_nil_r. fold chunk.
  split; [reflexivity|]. split.
  - intros event. rewrite <- in_rev. apply redactions_In.
  - intros earlier latest ->.
    rewrite <- (app_nil_r (rev _)). apply head_of_rev.
Qed.

End NewRoomFacts.

Lemma NewRoom_keeps_the_redactions_witness :
  exists room,
    snd (NewRoom
           (server_with [message "$a"; redaction "$b"; message "$c";
                         redaction "$d"])
           "!room:example.org") = Ok room /\
    eventList room = [redaction "$d"; redaction "$b"].
Proof.
  destruct (NewRoom_keeps_the_redactions
              (server_with [message "$a"; redaction "$b"; message "$c";
                            redaction "$d"])
              "!room:example.org" _ eq_refl) as (room & E & L & _).
  exists room. split; [exact E | exact L].
Defined.

(** ** Live delivery *)

(** C8.  [concatForwardPagination] drops the redactions of the delivery,
    folds every other event into the room state as a non-initial
    application, in delivery order, and puts those events in front of the
    timeline in reverse delivery order, so that the survivor delivered last
    is at index 0; the newer-edge cursor becomes the supplied one and the
    rest of the room is as before. *)
Theorem concatForwardPagination_prepends :
  forall {reducer : Reducer} (r : Room) (newEvents : list Event)
         (newToken : string),
    let r' := concatForwardPagination r newEvents newToken in
    (forall event,
        In event (survivors newEvents) <->
        In event newEvents /\ gomatrix.Type_ event <> "m.room.redaction") /\
    eventList r' = rev (survivors newEvents) ++ eventList r /\
    latestRoomState r'
    = fold_left (fun s event => UpdateOnEvent s event false)
                (survivors newEvents) (latestRoomState r) /\
    (forall earlier latest,
        survivors newEvents = earlier ++ [latest] ->
        nth_error (eventList r') 0 = Some latest) /\
    forwardPaginationToken r' = newToken /\
    backPaginationToken r' = backPaginationToken r /\
    ID r' = ID r /\
    hasInitialSynced r' = hasInitialSynced r.
Proof.
  intros reducer r newEvents newToken r'. subst r'.
  unfold concatForwardPagination.
  rewrite concatForwardPagination_loop. cbn.
  split; [intros event; apply survivors_In|].
  repeat split.
  intros earlier latest ->. apply head_of_rev.
Qed.

Lemma concatForwardPagination_prepends_witness :
  let r' :=
    concatForwardPagination
      (room_with [message "$y"; message "$z"])
      [message "$a"; redaction "$b"; message "$c"] "T9" in
  eventList r' = [message "$c"; message "$a"; message "$y"; message "$z"] /\
  latestRoomState r' = [(message "$a", false); (message "$c", false)] /\
  nth_error (eventList r') 0 = Some (message "$c") /\
  forwardPaginationToken r' = "T9".
Proof.
  destruct (concatForwardPagination_prepends
              (room_with [message "$y"; message "$z"])
              [message "$a"; redaction "$b"; message "$c"] "T9")
    as (_ & L & S & H & T & _).
  exact (conj L (conj S (conj (H [message "$a"] (message "$c") eq_refl) T))).
Defined.

(** ** Locating the anchor *)

Section AnchorFacts.

Context {reducer : Reducer}.
Implicit Types (m : Client) (r : Room).

(** What [findEventIndex] does when it is allowed to extend the timeline
    and the first scan finds nothing. *)
Lemma findEventIndex_true_miss m r anchor :
  scan (eventList r) anchor 0 = None ->
  findEventIndex m r anchor true
  = let '(m', r', (numNew, _)) := backpaginateRoom m r 100 in
    if numNew >? 0
    then (m', r',
          match scan (eventList r') anchor 0 with
          | Some index => (index, true)
          | None => (0, false)
          end)
    else (m', r', (0, false)).
Proof.
  intros Hmiss. simp findEventIndex. rewrite Hmiss.
  cbn [findEventIndex_unfold_clause_1 findEventIndex_unfold_clause_1_clause_2].
  destruct (backpaginateRoom m r 100) as [[m' r'] [numNew err]].
  cbn [findEventIndex_unfold_clause_1_clause_2_clause_2].
  destruct (numNew >? 0);
    cbn [findEventIndex_unfold_clause_1_clause_2_clause_2_clause_1];
    [|reflexivity].
  apply findEventIndex_false.
Qed.

Lemma backpaginateRoom_sent m r amount :
  sent (fst (fst (backpaginateRoom m r amount)))
  = sent m ++ [older_request r amount].
Proof.
  unfold backpaginateRoom, FetchOlder.
  now destruct (serveMessages m (sent m) (ID r) (backPaginationToken r) amount).
Qed.

End AnchorFacts.

Section AnchorClaims.

Context {reducer : Reducer}.
Implicit Types (m : Client) (r : Room).

(** C2, as the code has it.  When the anchor is not empty and no cached
    event carries it, [GetEventPage] has scanned the cached timeline once,
    with [backpaginate = false]: nothing is fetched, client and room are
    as before, and the call reports that the event could not be found.
    The single extension by 100 events, followed by one more scan when it
    appended at least one event, is what [findEventIndex] does under
    [backpaginate = true], a value [GetEventPage] never passes. *)
Theorem GetEventPage_unknown_anchor :
  forall m r (anchor : string) (offset pageSize : Z),
    String.eqb anchor "" = false ->
    scan (eventList r) anchor 0 = None ->
    GetEventPage m r anchor offset pageSize
    = (m, r, Returns [] (Some "Could not find event")) /\
    sent (fst (fst (findEventIndex m r anchor true)))
    = sent m ++ [older_request r 100] /\
    findEventIndex m r anchor true
    = (let '(m', r', (numNew, _)) := backpaginateRoom m r 100 in
       if numNew >? 0
       then (m', r',
             match scan (eventList r') anchor 0 with
             | Some index => (index, true)
             | None => (0, false)
             end)
       else (m', r', (0, false))).
Proof.
  intros m r anchor offset pageSize Hne Hmiss.
  split; [|split].
  - rewrite GetEventPage_eq. unfold anchor_index. now rewrite Hne, Hmiss.
  - rewrite (findEventIndex_true_miss _ _ _ Hmiss).
    rewrite <- backpaginateRoom_sent.
    destruct (backpaginateRoom m r 100) as [[m' r'] [numNew err]].
    now destruct (numNew >? 0).
  - apply findEventIndex_true_miss, Hmiss.
Qed.

(** Growth by [getBackwardEventRange] is growth at the tail. *)
Lemma getBackwardEventRange_appends m r a o n :
  exists appended,
    eventList (snd (fst (getBackwardEventRange m r a o n)))
    = eventList r ++ appended.
Proof.
  unfold getBackwardEventRange.
  destruct (_ >=? len (eventList r)).
  - unfold backpaginateRoom, FetchOlder.
    destruct (serveMessages m (sent m) (ID r) (backPaginationToken r) _)
      as [resp|e].
    + rewrite concatBackpagination_eq. cbn. eauto.
    + cbn. exists []. now rewrite app_nil_r.
  - cbn. exists []. now rewrite app_nil_r.
Qed.

(** C7.  [GetEventPage] returns an error exactly when the anchor is not
    empty and no event of the timeline carries it, be it the timeline
    before the call or the timeline the call leaves behind; with the error
    come no events and no change; an empty anchor stands for index 0 and
    never yields an error. *)
Theorem GetEventPage_error_iff :
  forall m r (anchor : string) (offset pageSize : Z) m' r' out,
    GetEventPage m r anchor offset pageSize = (m', r', out) ->
    let fails := exists events e, out = Returns events (Some e) in
    let absent_from (timeline : list Event) :=
      forall event, In event timeline -> gomatrix.ID event <> anchor in
    (fails <-> anchor <> "" /\ absent_from (eventList r)) /\
    (fails <-> anchor <> "" /\ absent_from (eventList r')) /\
    (fails ->
     out = Returns [] (Some "Could not find event") /\ m' = m /\ r' = r) /\
    (anchor = "" ->
     anchor_index r anchor = Some 0 /\ ~ fails /\
     (m', r', out)
     = if offset >=? 0 then
         let '(m2, r2, events) :=
           getBackwardEventRange m r 0 offset pageSize in
         (m2, r2, of_range events)
       else
         (m, r,
          of_range (getForwardEventRange r 0 (GoInt.neg offset) pageSize))).
Proof.
  intros m r anchor offset pageSize m' r' out Hcall fails absent_from.
  rewrite GetEventPage_eq in Hcall.
  assert (Hok : forall a (x : Client * Room * outcome),
    x = (if offset >=? 0 then
           let '(m2, r2, events) :=
             getBackwardEventRange m r a offset pageSize in
           (m2, r2, of_range events)
         else
           (m, r,
            of_range
              (getForwardEventRange r a (GoInt.neg offset) pageSize))) ->
    (forall events e, snd x <> Returns events (Some e)) /\
    exists appended, eventList (snd (fst x)) = eventList r ++ appended).
  { intros a x ->. destruct (offset >=? 0).
    - pose proof (getBackwardEventRange_appends m r a offset pageSize) as Happ.
      destruct (getBackwardEventRange m r a offset pageSize)
        as [[m2 r2] [page|]]; cbn in *; split; try discriminate; exact Happ.
    - cbn. split.
      + now destruct (getForwardEventRange r a _ pageSize).
      + exists []. now rewrite app_nil_r. }
  unfold anchor_index in Hcall.
  destruct (String.eqb_spec anchor "") as [Hempty|Hne].
  - (* the empty anchor *)
    destruct (Hok 0 _ (eq_sym Hcall)) as [Hnoerr _]. cbn in Hnoerr.
    assert (Hnf : ~ fails) by (intros (events & e & ->); eapply Hnoerr; eauto).
    repeat split; try tauto; try (intros [? _]; tauto).
    + unfold anchor_index. subst anchor. reflexivity.
    + now symmetry.
  - destruct (scan (eventList r) anchor 0) as [a|] eqn:Hscan.
    + (* found *)
      destruct (Hok a _ (eq_sym Hcall)) as [Hnoerr [appended Happ]].
      cbn in Hnoerr, Happ.
      assert (Hnf : ~ fails)
        by (intros (events & e & ->); eapply Hnoerr; eauto).
      assert (Hin : ~ absent_from (eventList r)).
      { intros Habs. apply (proj2 (scan_None _ _ 0)) in Habs. congruence. }
      assert (Hin' : ~ absent_from (eventList r')).
      { intros Habs. apply Hin. intros event Hev. apply Habs.
        rewrite Happ. apply in_or_app. now left. }
      repeat split; try tauto; try (intros [_ ?]; tauto).
    + (* not found *)
      injection Hcall as <- <- <-.
      assert (Habs : absent_from (eventList r))
        by exact (proj1 (scan_None _ _ 0) Hscan).
      assert (Hf : fails) by (do 2 eexists; reflexivity).
      repeat split; auto; try tauto; try congruence.
Qed.

End AnchorClaims.

(** ** Pages towards older events *)

Section BackwardClaims.

Context {reducer : Reducer}.
Implicit Types (m : Client) (r : Room).

Lemma fits_prefix {A : Type} (s t : list A) : fits (s ++ t) -> fits s.
Proof.
  unfold fits. rewrite len_app. pose proof (len_nonneg t). lia.
Qed.

Lemma backward_state_ok m r a o n resp :
  backward_exact a o n -> fits (eventList r) ->
  len (eventList r) <= neededDepth a o n ->
  older_answer m r (neededDepth a o n - len (eventList r)) = Ok resp ->
  snd (fst (getBackwardEventRange m r a o n))
  = concatBackpagination r (Chunk resp) (End_ resp).
Proof.
  intros Hex Hfit Hle Hans. unfold getBackwardEventRange.
  rewrite delta_exact by assumption.
  rewrite Z.geb_leb.
  destruct (Z.leb_spec (len (eventList r)) (neededDepth a o n)); [|lia].
  pose proof (len_nonneg (eventList r)).
  rewrite GoIntFacts.sub_exact
    by (destruct Hex as (? & ? & ? & ?); int_bounds; lia).
  now rewrite (backpaginateRoom_ok _ _ _ _ Hans).
Qed.

(** Every run of [getBackwardEventRange] on a request with exact index
    arithmetic: what it sends, what it appends, what it returns. *)
Lemma backward_run m r a o n m' r' events :
  backward_exact a o n ->
  getBackwardEventRange m r a o n = (m', r', events) ->
  fits (eventList r') ->
  sent m' = sent m ++ backward_requests r a o n /\
  eventList r' = eventList r ++ backward_appended m r a o n /\
  backPaginationToken r'
  = match backward_requests r a o n with
    | [] => backPaginationToken r
    | _ :: _ =>
        match older_answer m r (neededDepth a o n - len (eventList r)) with
        | Ok resp => End_ resp
        | Err _ => backPaginationToken r
        end
    end /\
  events = Some (backward_page (eventList r') a o n).
Proof.
  intros Hex Hcall Hfit'.
  assert (Hfit : fits (eventList r)).
  { destruct (getBackwardEventRange_appends m r a o n) as [appended Happ].
    rewrite Hcall in Happ. cbn in Happ. rewrite Happ in Hfit'.
    eapply fits_prefix, Hfit'. }
  unfold backward_requests, backward_appended. cbv zeta.
  rewrite Z.geb_leb.
  destruct (Z.leb_spec (len (eventList r)) (neededDepth a o n)) as [Hle|Hlt].
  - destruct (older_answer m r (neededDepth a o n - len (eventList r)))
      as [resp|e] eqn:Hans.
    + pose proof (backward_state_ok _ _ _ _ _ _ Hex Hfit Hle Hans) as Hr'.
      rewrite Hcall in Hr'. cbn in Hr'. subst r'.
      rewrite concatBackpagination_eq in Hfit'. cbn in Hfit'.
      rewrite (backward_fetch_ok _ _ _ _ _ _ Hex Hfit' Hle Hans) in Hcall.
      injection Hcall as <- <-.
      rewrite concatBackpagination_eq. cbn. auto.
    + rewrite (backward_fetch_err _ _ _ _ _ _ Hex Hfit Hle Hans) in Hcall.
      injection Hcall as <- <- <-. cbn. now rewrite app_nil_r.
  - rewrite (backward_quiet _ _ _ _ _ Hex Hfit Hlt) in Hcall.
    injection Hcall as <- <- <-. now rewrite !app_nil_r.
Qed.

(** C4, for requests within [int].  For a backward request with
    non-negative [anchorIndex], [offset] and [count] whose needed depth
    [anchorIndex + offset + count + 32] is at most the largest [int],
    [getBackwardEventRange] sends one history request, for
    [neededDepth - length] events, exactly when [neededDepth >= length],
    and none otherwise; it tracks the length of the cache plus the number
    of events the fetch appended; and it returns the events at positions
    [min(anchorIndex+offset, length)] up to
    [min(min(anchorIndex+offset, length)+count, length)] of the timeline:
    at most [count] events, a contiguous run of the timeline in timeline
    order. *)
Theorem getBackwardEventRange_page :
  forall m r (anchorIndex offset count : Z) m' r' events,
    0 <= anchorIndex -> 0 <= offset -> 0 <= count ->
    neededDepth anchorIndex offset count <= GoInt.max_int ->
    getBackwardEventRange m r anchorIndex offset count = (m', r', events) ->
    fits (eventList r') ->
    let length0 := len (eventList r) in
    let appended := backward_appended m r anchorIndex offset count in
    let length := length0 + len appended in
    let startIndex := Z.min (anchorIndex + offset) length in
    let endIndex := Z.min (startIndex + count) length in
    let page := sub_seq (eventList r') startIndex endIndex in
    sent m'
    = sent m ++
      (if neededDepth anchorIndex offset count >=? length0
       then [older_request r
               (neededDepth anchorIndex offset count - length0)]
       else []) /\
    eventList r' = eventList r ++ appended /\
    events = Some page /\
    len page <= count /\
    exists before after,
      eventList r' = before ++ page ++ after /\ len before = startIndex.
Proof.
  intros m r a o n m' r' events Ha Ho Hn Hsum Hcall Hfit'.
  destruct (backward_run m r a o n m' r' events) as (Hs & He & _ & Hp);
    [repeat split; assumption | assumption | assumption |].
  cbv zeta. rewrite <- len_app, <- He.
  pose proof (backward_bounds (eventList r') a o n Ha Ho Hn) as [Hb Ht].
  unfold backward_end, backward_start in Hb, Ht.
  repeat split; try assumption.
  - pose proof (sub_seq_len_le (eventList r')
        (Z.min (a + o) (len (eventList r')))
        (Z.min (Z.min (a + o) (len (eventList r')) + n)
               (len (eventList r')))).
    lia.
  - destruct (sub_seq_contiguous (eventList r') _ _ Hb Ht)
      as (before & after & E & Hlen & _).
    now exists before, after.
Qed.

(** C3, with the depth the code computes.  Ten events are cached and
    [GetEventPage("", 5, 5)] is called: the empty anchor is index 0, so the
    needed depth is [0 + 5 + 5 + 32 = 42], a history request for 32 events
    goes out, and when the answer appends 3 events the timeline has 13 and
    the page is made of the events at positions 5 to 9 of the ten cached
    before, without an error. *)
Theorem GetEventPage_ten_cached :
  forall m r (resp : RespMessages),
    len (eventList r) = 10 ->
    older_answer m r 32 = Ok resp ->
    len (survivors (Chunk resp)) = 3 ->
    let r' := concatBackpagination r (Chunk resp) (End_ resp) in
    neededDepth 0 5 5 = 42 /\
    GetEventPage m r "" 5 5
    = (record_request m (older_request r 32), r',
       Returns (sub_seq (eventList r) 5 10) None) /\
    len (eventList r') = 13 /\
    sub_seq (eventList r') (Z.min 5 13) (Z.min 10 13)
    = sub_seq (eventList r) 5 10 /\
    len (sub_seq (eventList r) 5 10) = 5.
Proof.
  intros m r resp Hlen Hans Hnew r'.
  assert (Hex : backward_exact 0 5 5) by (int_bounds; lia).
  assert (Hr' : eventList r' = eventList r ++ survivors (Chunk resp)).
  { subst r'. now rewrite concatBackpagination_eq. }
  assert (Hcut : sub_seq (eventList r') 5 10 = sub_seq (eventList r) 5 10).
  { rewrite Hr'. apply sub_seq_app_l; lia. }
  split; [reflexivity|]. split; [|split; [|split]].
  - rewrite GetEventPage_eq. cbn [anchor_index String.eqb].
    change (5 >=? 0) with true. cbv iota.
    rewrite (backward_fetch_ok m r 0 5 5 resp Hex).
    + fold r'. rewrite <- Hr'.
      unfold backward_page, backward_end, backward_start.
      rewrite Hr', len_app, Hlen, Hnew, <- Hr'.
      change (Z.min (0 + 5) (10 + 3)) with 5.
      change (Z.min (5 + 5) (10 + 3)) with 10.
      cbn [of_range]. now rewrite Hcut.
    + unfold fits. rewrite len_app, Hlen, Hnew. int_bounds. lia.
    + rewrite Hlen. unfold neededDepth. lia.
    + rewrite Hlen. exact Hans.
  - rewrite Hr', len_app, Hlen, Hnew. reflexivity.
  - exact Hcut.
  - destruct (sub_seq_contiguous (eventList r) 5 10) as (_ & _ & _ & _ & E);
      [lia | lia | exact E].
Qed.

End BackwardClaims.

Section PageClaims.

Context {reducer : Reducer}.
Implicit Types (m : Client) (r : Room).

(** A cache deeper than the needed depth answers a backward request
    without a fetch and without a change. *)
Lemma GetEventPage_enough_cached m r anchor anchorIndex offset pageSize :
  anchor_index r anchor = Some anchorIndex ->
  0 <= offset -> 0 <= pageSize ->
  neededDepth anchorIndex offset pageSize < len (eventList r) ->
  fits (eventList r) ->
  GetEventPage m r anchor offset pageSize
  = (m, r,
     Returns (backward_page (eventList r) anchorIndex offset pageSize) None).
Proof.
  intros Hanchor Ho Hn Hlt Hfit.
  destruct (anchor_index_bounds _ _ _ Hanchor) as [Ha _].
  rewrite GetEventPage_eq, Hanchor.
  destruct (Z.geb_spec offset 0) as [_|]; [|lia].
  rewrite backward_quiet; try assumption; [reflexivity|].
  repeat split; try assumption. int_bounds. lia.
Qed.

(** C6, for requests within [int] and a page size that is not negative.
    When the history request of a backward page request fails, the room,
    and with it the timeline and both cursors, is as before the call, the
    page is cut with the length the timeline had before the call, and
    [GetEventPage] returns that page with a [nil] error; the page may have
    fewer than [pageSize] events. *)
Theorem GetEventPage_survives_failed_fetch :
  forall m r (anchor : string) (anchorIndex offset pageSize : Z) (e : string),
    anchor_index r anchor = Some anchorIndex ->
    0 <= offset -> 0 <= pageSize ->
    neededDepth anchorIndex offset pageSize <= GoInt.max_int ->
    fits (eventList r) ->
    let length := len (eventList r) in
    let amount := neededDepth anchorIndex offset pageSize - length in
    length <= neededDepth anchorIndex offset pageSize ->
    older_answer m r amount = Err e ->
    let startIndex := Z.min (anchorIndex + offset) length in
    let endIndex := Z.min (startIndex + pageSize) length in
    let page := sub_seq (eventList r) startIndex endIndex in
    GetEventPage m r anchor offset pageSize
    = (record_request m (older_request r amount), r, Returns page None) /\
    len page <= pageSize /\
    0 <= startIndex <= endIndex /\ endIndex <= length.
Proof.
  intros m r anchor a offset pageSize e Hanchor Ho Hn Hsum Hfit
         length amount Hle Hans startIndex endIndex page.
  destruct (anchor_index_bounds _ _ _ Hanchor) as [Ha _].
  assert (Hex : backward_exact a offset pageSize) by (repeat split; assumption).
  pose proof (backward_bounds (eventList r) a offset pageSize Ha Ho Hn)
    as [Hb Ht].
  unfold backward_end, backward_start in Hb, Ht.
  fold length startIndex endIndex in Hb, Ht.
  split; [|split; [|split; assumption]].
  - rewrite GetEventPage_eq, Hanchor.
    destruct (Z.geb_spec offset 0) as [_|]; [|lia].
    now rewrite (backward_fetch_err _ _ _ _ _ _ Hex Hfit Hle Hans).
  - pose proof (sub_seq_len_le (eventList r) startIndex endIndex).
    subst page endIndex. lia.
Qed.

(** C9, for requests within [int] and a page size that is not negative.
    A call with a negative offset sends nothing and leaves the room as it
    is; with [fwdOffset = -offset] and
    [topIndex = clamp(anchorIndex + pageSize - fwdOffset, 0, length)] it
    returns the events at positions [max(topIndex - pageSize, 0)] up to
    [topIndex], provided [anchorIndex + pageSize - fwdOffset] is at most
    the largest [int]. *)
Theorem GetEventPage_forward :
  forall m r (anchor : string) (offset pageSize : Z) m' r' out,
    offset < 0 ->
    GetEventPage m r anchor offset pageSize = (m', r', out) ->
    m' = m /\ r' = r /\
    forall anchorIndex,
      anchor_index r anchor = Some anchorIndex ->
      GoInt.min_int <= offset ->
      0 <= pageSize <= GoInt.max_int ->
      fits (eventList r) ->
      let fwdOffset := - offset in
      let length := len (eventList r) in
      anchorIndex + pageSize - fwdOffset <= GoInt.max_int ->
      let topIndex :=
        Z.max 0 (Z.min (anchorIndex + pageSize - fwdOffset) length) in
      let bottomIndex := Z.max (topIndex - pageSize) 0 in
      out = Returns (sub_seq (eventList r) bottomIndex topIndex) None.
Proof.
  intros m r anchor offset pageSize m' r' out Hneg Hcall.
  rewrite GetEventPage_eq in Hcall.
  destruct (Z.geb_spec offset 0) as [|_]; [lia|].
  destruct (anchor_index r anchor) as [a|] eqn:Hanchor;
    injection Hcall as <- <- <-; (split; [reflexivity|split; [reflexivity|]]).
  - intros a' [= <-] Hmin Hn Hfit fwdOffset length Hsum topIndex bottomIndex.
    destruct (anchor_index_bounds _ _ _ Hanchor) as [Ha _].
    rewrite forward_exact; try assumption; [reflexivity|].
    int_bounds. lia.
  - discriminate.
Qed.

(** C10, for requests within [int].  With [pageSize >= 0] no slice
    expression of [GetEventPage] is out of range, provided that for
    [offset >= 0] the needed depth is at most the largest [int]; towards
    newer events nothing more is asked.  With [pageSize < 0] and a
    resolved anchor the backward slice is always out of range, and so is
    the forward slice when [length - pageSize] is at most the largest
    [int]. *)
Theorem GetEventPage_slice_bounds :
  forall m r (anchor : string) (offset pageSize : Z) m' r' out,
    GetEventPage m r anchor offset pageSize = (m', r', out) ->
    GoInt.is_int pageSize ->
    fits (eventList r') ->
    (0 <= pageSize ->
     (forall anchorIndex,
         anchor_index r anchor = Some anchorIndex -> 0 <= offset ->
         neededDepth anchorIndex offset pageSize <= GoInt.max_int) ->
     out <> Panics) /\
    (pageSize < 0 ->
     (offset < 0 -> len (eventList r) - pageSize <= GoInt.max_int) ->
     anchor_index r anchor <> None ->
     out = Panics).
Proof.
  intros m r anchor offset pageSize m' r' out Hcall [Hmin Hmax] Hfit'.
  rewrite GetEventPage_eq in Hcall.
  destruct (anchor_index r anchor) as [a|] eqn:Hanchor.
  2:{ injection Hcall as <- <- <-. split; [discriminate|congruence]. }
  destruct (anchor_index_bounds _ _ _ Hanchor) as [Ha _].
  destruct (Z.geb_spec offset 0) as [Ho|Ho].
  - (* towards older events *)
    destruct (getBackwardEventRange m r a offset pageSize)
      as [[m2 r2] events] eqn:Hrun.
    injection Hcall as <- <- <-. split.
    + intros Hn Hsum.
      assert (Hex : backward_exact a offset pageSize)
        by (repeat split; auto; lia).
      destruct (backward_run _ _ _ _ _ _ _ _ Hex Hrun Hfit')
        as (_ & _ & _ & ->).
      discriminate.
    + intros Hn _ _.
      pose proof (backward_negative_count m r a offset pageSize Hn Hmin) as E.
      rewrite Hrun in E. cbn in E. now subst events.
  - (* towards newer events *)
    injection Hcall as <- <- <-. split.
    + intros Hn _.
      destruct (forward_in_range r a (GoInt.neg offset) pageSize)
        as [page ->]; [lia | assumption | discriminate].
    + intros Hn Hlen _.
      rewrite forward_negative_count; [reflexivity | assumption | auto].
Qed.

End PageClaims.

(** ** The claims on sample rooms *)

Lemma GetEventPage_unknown_anchor_witness :
  GetEventPage (server_with [message "$old"]) two_cached "$old" 0 5
  = (server_with [message "$old"], two_cached,
     Returns [] (Some "Could not find event")).
Proof.
  exact (proj1 (GetEventPage_unknown_anchor
                  (server_with [message "$old"]) two_cached "$old" 0 5
                  eq_refl eq_refl)).
Defined.

(** C2 fails as stated: the event ["$old"] is not cached, one extension
    would deliver it, and [GetEventPage] reports it missing without having
    sent a single request. *)
Lemma GetEventPage_unknown_anchor_sends_nothing :
  let call :=
    GetEventPage (server_with [message "$old"]) two_cached "$old" 0 5 in
  scan (eventList two_cached) "$old" 0 = None /\
  sent (fst (fst call)) = [] /\
  snd call = Returns [] (Some "Could not find event") /\
  snd (findEventIndex (server_with [message "$old"]) two_cached "$old" true)
  = (2, true).
Proof. vm_compute. repeat split. Qed.

Lemma GetEventPage_ten_cached_witness :
  GetEventPage (server_with older_chunk) ten_cached "" 5 5
  = (record_request (server_with older_chunk) (older_request ten_cached 32),
     concatBackpagination ten_cached older_chunk "T2",
     Returns [message "$5"; message "$6"; message "$7"; message "$8";
              message "$9"] None).
Proof.
  exact (proj1 (proj2 (GetEventPage_ten_cached
                         (server_with older_chunk) ten_cached
                         {| Start := "T1"; Chunk := older_chunk; End_ := "T2" |}
                         eq_refl eq_refl eq_refl))).
Defined.

(** C3 fails as stated: with ten events cached, [GetEventPage("", 5, 5)]
    needs a depth of 42, not 47, and asks for 32 events, not 37. *)
Lemma GetEventPage_ten_cached_asks_for_32 :
  neededDepth 0 5 5 <> 47 /\
  sent (fst (fst (GetEventPage (server_with older_chunk) ten_cached "" 5 5)))
  = [MessagesRequest "!room:example.org" "T1" 32] /\
  sent (fst (fst (GetEventPage (server_with older_chunk) ten_cached "" 5 5)))
  <> [MessagesRequest "!room:example.org" "T1" 37].
Proof. vm_compute. repeat split; discriminate. Qed.

Lemma getBackwardEventRange_page_witness :
  let call :=
    getBackwardEventRange (server_with older_chunk) two_cached 1 1 2 in
  sent (fst (fst call)) = [MessagesRequest "!room:example.org" "T1" 34] /\
  eventList (snd (fst call))
  = [message "$x"; message "$y"; message "$10"; message "$11"; message "$12"] /\
  snd call = Some [message "$10"; message "$11"] /\
  len [message "$10"; message "$11"] <= 2.
Proof.
  intros call.
  destruct (getBackwardEventRange_page
              (server_with older_chunk) two_cached 1 1 2
              (fst (fst call)) (snd (fst call)) (snd call)
              ltac:(lia) ltac:(lia) ltac:(lia)
              ltac:(unfold neededDepth, GoInt.max_int; lia)
              eq_refl
              ltac:(apply Z.leb_le; reflexivity))
    as (Hsent & Hgrown & Hpage & Hcount & _).
  exact (conj Hsent (conj Hgrown (conj Hpage Hcount))).
Defined.

(** C4 fails as stated: [anchorIndex = 1], [offset = 2^63 - 1] and
    [count = 0] are not negative, yet [anchorIndex + offset] wraps to a
    negative start index: nothing is fetched although the needed depth
    exceeds the two events cached, and the slice expression panics. *)
Lemma getBackwardEventRange_wraps :
  0 <= 1 /\ 0 <= GoInt.max_int /\
  len (eventList two_cached) <= neededDepth 1 GoInt.max_int 0 /\
  getBackwardEventRange server_down two_cached 1 GoInt.max_int 0
  = (server_down, two_cached, None).
Proof. repeat split; try (vm_compute; discriminate). Qed.

(** C5 at a room that caches exactly the needed depth: 32 events for
    [GetEventPage("", 0, 0)].  A history request for 0 events goes out and
    the older-edge cursor of the room is replaced. *)
Theorem GetEventPage_fetches_at_exact_depth :
  let call := GetEventPage (server_with []) exact_depth_cached "" 0 0 in
  len (eventList exact_depth_cached) = neededDepth 0 0 0 /\
  sent (fst (fst call)) = [MessagesRequest "!room:example.org" "T1" 0] /\
  backPaginationToken (snd (fst call)) = "T2" /\
  snd (fst call) <> exact_depth_cached /\
  snd call = Returns [] None.
Proof.
  vm_compute. repeat split. intros H. discriminate H.
Qed.

Lemma GetEventPage_survives_failed_fetch_witness :
  GetEventPage server_down two_cached "$y" 0 5
  = (record_request server_down (older_request two_cached 36), two_cached,
     Returns [message "$y"] None) /\
  len [message "$y"] <= 5.
Proof.
  destruct (GetEventPage_survives_failed_fetch
              server_down two_cached "$y" 1 0 5 "connection refused"
              eq_refl ltac:(lia) ltac:(lia)
              ltac:(unfold neededDepth, GoInt.max_int; lia)
              ltac:(apply Z.leb_le; reflexivity)
              ltac:(apply Z.leb_le; reflexivity)
              eq_refl)
    as (Hcall & Hcount & _).
  exact (conj Hcall Hcount).
Defined.

(** C6 fails as stated.  The history request fails in both calls; the
    first has [pageSize = -1], the second an [anchorIndex + offset] that
    wraps; neither returns: the slice expression panics. *)
Lemma GetEventPage_failed_fetch_panics :
  (let call := GetEventPage server_down two_cached "" 0 (-1) in
   0 <= 0 /\
   sent (fst (fst call)) = [MessagesRequest "!room:example.org" "T1" 29] /\
   snd call = Panics) /\
  (let call :=
     GetEventPage server_down two_cached "$y" GoInt.max_int GoInt.max_int in
   0 <= GoInt.max_int /\
   sent (fst (fst call)) = [MessagesRequest "!room:example.org" "T1" 29] /\
   snd call = Panics).
Proof. vm_compute. repeat split; discriminate. Qed.

Lemma GetEventPage_error_iff_witness :
  (exists events e,
      Returns [] (Some "Could not find event") = Returns events (Some e)) <->
  "$nowhere" <> "" /\
  forall event,
    In event [message "$x"; message "$y"] -> gomatrix.ID event <> "$nowhere".
Proof.
  exact (proj1 (GetEventPage_error_iff
                  server_down two_cached "$nowhere" 0 5
                  server_down two_cached
                  (Returns [] (Some "Could not find event")) eq_refl)).
Defined.

Lemma GetEventPage_forward_witness :
  GetEventPage server_down three_cached "$z" (-1) 2
  = (server_down, three_cached, Returns [message "$y"; message "$z"] None).
Proof.
  destruct (GetEventPage_forward
              server_down three_cached "$z" (-1) 2
              (fst (fst (GetEventPage server_down three_cached "$z" (-1) 2)))
              (snd (fst (GetEventPage server_down three_cached "$z" (-1) 2)))
              (snd (GetEventPage server_down three_cached "$z" (-1) 2))
              ltac:(lia) eq_refl)
    as (Hm & Hr & Hpage).
  pose proof (Hpage 2 eq_refl
                ltac:(unfold GoInt.min_int; lia)
                ltac:(unfold GoInt.max_int; lia)
                ltac:(apply Z.leb_le; reflexivity)
                ltac:(apply Z.leb_le; reflexivity)) as Hout.
  cbv zeta in Hout.
  rewrite (surjective_pairing
             (GetEventPage server_down three_cached "$z" (-1) 2)).
  rewrite (surjective_pairing
             (fst (GetEventPage server_down three_cached "$z" (-1) 2))).
  rewrite Hm, Hr, Hout. reflexivity.
Defined.

(** C9 fails as stated.  In the first call [anchorIndex + pageSize] wraps:
    the call returns no event where the stated bounds select all three.
    In the second call [pageSize = -1] and the slice expression panics. *)
Lemma GetEventPage_forward_wraps :
  (snd (GetEventPage server_down three_cached "$z" (-1) GoInt.max_int)
   = Returns [] None /\
   forward_page (eventList three_cached) 2 1 GoInt.max_int
   = [message "$x"; message "$y"; message "$z"]) /\
  snd (GetEventPage server_down two_cached "" (-1) (-1)) = Panics.
Proof. vm_compute. repeat split. Qed.

Lemma GetEventPage_slice_bounds_witness :
  snd (GetEventPage (server_with older_chunk) two_cached "$y" 1 2) <> Panics /\
  snd (GetEventPage (server_with older_chunk) two_cached "$y" 1 (-2)) = Panics.
Proof.
  split.
  - refine (proj1 (GetEventPage_slice_bounds
                     (server_with older_chunk) two_cached "$y" 1 2
                     _ _ _ eq_refl _ _) _ _).
    + unfold GoInt.is_int, GoInt.min_int, GoInt.max_int. lia.
    + apply Z.leb_le. reflexivity.
    + lia.
    + intros anchorIndex [= <-] _. unfold neededDepth, GoInt.max_int. lia.
  - refine (proj2 (GetEventPage_slice_bounds
                     (server_with older_chunk) two_cached "$y" 1 (-2)
                     _ _ _ eq_refl _ _) _ _ _).
    + unfold GoInt.is_int, GoInt.min_int, GoInt.max_int. lia.
    + apply Z.leb_le. reflexivity.
    + lia.
    + lia.
    + discriminate.
Defined.

(** C10 fails as stated.  [pageSize = 2^63 - 1] is not negative, the anchor
    is index 0 and the offset is 1, yet [startIndex + pageSize] wraps and
    the backward slice [[1, -2^63)] panics.  And [pageSize = -2^63] is
    negative, yet the forward slice is in range: [topIndex - pageSize]
    wraps and the whole timeline is returned. *)
Lemma GetEventPage_bounds_wrap :
  (0 <= GoInt.max_int /\
   snd (GetEventPage server_down two_cached "" 1 GoInt.max_int) = Panics) /\
  (GoInt.min_int < 0 /\
   snd (GetEventPage server_down two_cached "" (-1) GoInt.min_int)
   = Returns [message "$x"; message "$y"] None).
Proof. vm_compute. repeat split; discriminate. Qed.

(** * Beyond the claims *)

(** ** Growth at both ends *)

Section Growth.

Context {reducer : Reducer}.
Implicit Types (m : Client) (r : Room).

Lemma survivors_app (a b : list Event) :
  survivors (a ++ b) = survivors a ++ survivors b.
Proof. apply filter_app. Qed.

Lemma survivors_no_redaction (events : list Event) :
  no_redaction (survivors events).
Proof.
  apply Forall_forall. intros event Hin.
  apply filter_In in Hin. destruct Hin as [_ H].
  now apply negb_true_iff in H.
Qed.

Lemma no_redaction_app (s t : list Event) :
  no_redaction (s ++ t) <-> no_redaction s /\ no_redaction t.
Proof. apply Forall_app. Qed.

Lemma no_redaction_sub_seq (s : list Event) low high :
  no_redaction s -> no_redaction (sub_seq s low high).
Proof.
  intros H. unfold sub_seq, no_redaction in *.
  rewrite <- (firstn_skipn (Z.to_nat low) s) in H.
  apply Forall_app in H. destruct H as [_ H].
  rewrite <- (firstn_skipn (Z.to_nat (high - low)) (skipn _ s)) in H.
  apply Forall_app in H. now destruct H as [H _].
Qed.

Lemma concatForwardPagination_eq r newEvents newToken :
  concatForwardPagination r newEvents newToken
  = set_forwardPaginationToken
      (set_eventList
         (set_latestRoomState r
            (fold_left (fun s event => UpdateOnEvent s event false)
                       (survivors newEvents) (latestRoomState r)))
         (rev (survivors newEvents) ++ eventList r))
      newToken.
Proof.
  unfold concatForwardPagination. now rewrite concatForwardPagination_loop.
Qed.

(** X1.  [concatBackpagination] appends the events of the delivery that
    are not redactions, in delivery order, behind the timeline, so every
    event keeps its index; it replaces the older-edge cursor and leaves the
    room state, the newer-edge cursor and the room ID alone: unlike a live
    delivery, history is never folded into the room state. *)
Theorem concatBackpagination_appends :
  forall r (oldEvents : list Event) (newToken : string),
    let r' := concatBackpagination r oldEvents newToken in
    eventList r' = eventList r ++ survivors oldEvents /\
    (forall i event,
        nth_error (eventList r) i = Some event ->
        nth_error (eventList r') i = Some event) /\
    len (eventList r') = len (eventList r) + len (survivors oldEvents) /\
    GetTokens r' = (newToken, forwardPaginationToken r) /\
    GetState r' = GetState r /\
    ID r' = ID r.
Proof.
  intros r oldEvents newToken r'. subst r'.
  rewrite concatBackpagination_eq. cbn.
  split; [reflexivity|]. split; [|split; [apply len_app|repeat split]].
  intros i event H. rewrite nth_error_app1; [exact H|].
  apply nth_error_Some. congruence.
Qed.

(** X2.  Two deliveries of older events in a row are one delivery of both
    chunks under the second cursor. *)
Theorem concatBackpagination_twice :
  forall r (first second : list Event) (token1 token2 : string),
    concatBackpagination (concatBackpagination r first token1) second token2
    = concatBackpagination r (first ++ second) token2.
Proof.
  intros r first second token1 token2.
  rewrite !concatBackpagination_eq, survivors_app.
  unfold set_backPaginationToken, set_eventList. cbn.
  now rewrite app_assoc.
Qed.

(** X3.  Two live deliveries in a row are one delivery of both lists under
    the second cursor: the same timeline and the same sequence of
    [UpdateOnEvent] calls. *)
Theorem concatForwardPagination_twice :
  forall r (first second : list Event) (token1 token2 : string),
    concatForwardPagination
      (concatForwardPagination r first token1) second token2
    = concatForwardPagination r (first ++ second) token2.
Proof.
  intros r first second token1 token2.
  rewrite !concatForwardPagination_eq, survivors_app.
  unfold set_forwardPaginationToken, set_eventList, set_latestRoomState. cbn.
  now rewrite fold_left_app, rev_app_distr, app_assoc.
Qed.

(** X4.  Growth at the older edge and growth at the newer edge do not
    interfere: a history delivery and a live delivery give the same room
    in either order. *)
Theorem concat_commute :
  forall r (oldEvents newEvents : list Event) (oldToken newToken : string),
    concatForwardPagination
      (concatBackpagination r oldEvents oldToken) newEvents newToken
    = concatBackpagination
        (concatForwardPagination r newEvents newToken) oldEvents oldToken.
Proof.
  intros r oldEvents newEvents oldToken newToken.
  rewrite !concatForwardPagination_eq, !concatBackpagination_eq.
  unfold set_forwardPaginationToken, set_backPaginationToken, set_eventList,
    set_latestRoomState. cbn.
  now rewrite app_assoc.
Qed.

(** X5.  A timeline without redactions stays without redactions under both
    kinds of delivery. *)
Theorem concat_no_redaction :
  forall r (events : list Event) (token : string),
    no_redaction (eventList r) ->
    no_redaction (eventList (concatBackpagination r events token)) /\
    no_redaction (eventList (concatForwardPagination r events token)).
Proof.
  intros r events token H.
  rewrite concatBackpagination_eq, concatForwardPagination_eq. cbn.
  split; apply no_redaction_app; split; try assumption.
  - apply survivors_no_redaction.
  - apply Forall_rev, survivors_no_redaction.
Qed.

End Growth.

(** ** The scan for an anchor *)

Section ScanFacts.

Context {reducer : Reducer}.
Implicit Types (m : Client) (r : Room).

Lemma len_cons {A : Type} (x : A) (s : list A) : len (x :: s) = 1 + len s.
Proof. unfold len. cbn [List.length]. lia. Qed.

(** A hit is the first event with the anchor's ID. *)
Lemma scan_first events anchor : forall start found,
  scan events anchor start = Some found ->
  exists event,
    nth_error events (Z.to_nat (found - start)) = Some event /\
    gomatrix.ID event = anchor /\
    forall j earlier,
      (j < Z.to_nat (found - start))%nat ->
      nth_error events j = Some earlier ->
      gomatrix.ID earlier <> anchor.
Proof.
  induction events as [|event rest IH]; intros start found; cbn [scan].
  - discriminate.
  - destruct (String.eqb_spec (gomatrix.ID event) anchor) as [E|E].
    + intros [= <-]. exists event. rewrite Z.sub_diag.
      repeat split; auto. intros j earlier Hj. cbn in Hj. lia.
    + intros H. pose proof (scan_bounds _ _ _ _ H) as Hb.
      destruct (IH _ _ H) as (hit & Hnth & Hid & Hfirst).
      replace (Z.to_nat (found - start))
        with (S (Z.to_nat (found - (start + 1)))) by lia.
      exists hit. repeat split; auto.
      intros [|j] earlier Hj Hn; cbn in Hn.
      * now injection Hn as <-.
      * apply (Hfirst j); [lia | assumption].
Qed.

(** Where the count starts only shifts the result. *)
Lemma scan_shift events anchor : forall start,
  scan events anchor start
  = option_map (fun found => start + found) (scan events anchor 0).
Proof.
  induction events as [|event rest IH]; intros start; cbn [scan].
  - reflexivity.
  - destruct (String.eqb _ _).
    + cbn [option_map]. f_equal. lia.
    + rewrite (IH (start + 1)), (IH (0 + 1)).
      destruct (scan rest anchor 0); cbn [option_map];
        [f_equal; lia | reflexivity].
Qed.

(** After a miss in the front part the scan goes on in the rest. *)
Lemma scan_app_miss events more anchor : forall start,
  scan events anchor start = None ->
  scan (events ++ more) anchor start
  = scan more anchor (start + len events).
Proof.
  induction events as [|event rest IH]; intros start; cbn [scan app].
  - intros _. f_equal. rewrite len_nil. lia.
  - destruct (String.eqb _ _); [discriminate|].
    intros H. rewrite (IH _ H), len_cons. f_equal. lia.
Qed.

(** X6.  [findEventIndex] without extension changes nothing.  When it
    reports a hit, the index lies inside the timeline and is that of the
    first event carrying the anchor's ID; when it reports a miss, the
    index is 0 and no event of the timeline carries that ID. *)
Theorem findEventIndex_first_match :
  forall m r (anchor : string) m' r' (index : Z) (found : bool),
    findEventIndex m r anchor false = (m', r', (index, found)) ->
    m' = m /\ r' = r /\
    (found = true ->
     0 <= index < len (eventList r) /\
     exists event,
       nth_error (eventList r) (Z.to_nat index) = Some event /\
       gomatrix.ID event = anchor /\
       forall j earlier,
         (j < Z.to_nat index)%nat ->
         nth_error (eventList r) j = Some earlier ->
         gomatrix.ID earlier <> anchor) /\
    (found = false ->
     index = 0 /\
     forall event, In event (eventList r) -> gomatrix.ID event <> anchor).
Proof.
  intros m r anchor m' r' index found H.
  rewrite findEventIndex_false in H.
  destruct (scan (eventList r) anchor 0) as [hit|] eqn:Hscan;
    injection H as <- <- <- <-; (split; [reflexivity|split; [reflexivity|]]).
  - split; [intros _|discriminate].
    pose proof (scan_bounds _ _ _ _ Hscan) as Hb.
    split; [lia|].
    destruct (scan_first _ _ _ _ Hscan) as (event & Hnth & Hid & Hfirst).
    rewrite Z.sub_0_r in Hnth, Hfirst. eauto.
  - split; [discriminate|intros _].
    split; [reflexivity|]. now apply (scan_None _ _ 0).
Qed.

(** X7.  [findEventIndex] with extension.  A cached anchor costs no
    request.  Otherwise exactly one history request for 100 events goes
    out; the anchor is found exactly when it is the ID of an event of the
    answer that is not a redaction, at the old length of the timeline plus
    its position among those events; a failed fetch, or one that appends
    nothing, ends in a miss. *)
Theorem findEventIndex_extends_once :
  forall m r (anchor : string),
    findEventIndex m r anchor true
    = match scan (eventList r) anchor 0 with
      | Some index => (m, r, (index, true))
      | None =>
          (record_request m (older_request r 100),
           match older_answer m r 100 with
           | Ok resp => concatBackpagination r (Chunk resp) (End_ resp)
           | Err _ => r
           end,
           match older_answer m r 100 with
           | Ok resp =>
               match scan (survivors (Chunk resp)) anchor 0 with
               | Some position => (len (eventList r) + position, true)
               | None => (0, false)
               end
           | Err _ => (0, false)
           end)
      end.
Proof.
  intros m r anchor.
  destruct (scan (eventList r) anchor 0) as [index|] eqn:Hscan.
  - simp findEventIndex. now rewrite Hscan.
  - rewrite (findEventIndex_true_miss _ _ _ Hscan).
    destruct (older_answer m r 100) as [resp|e] eqn:Hans.
    + rewrite (backpaginateRoom_ok _ _ _ _ Hans).
      rewrite concatBackpagination_eq. cbn [eventList set_eventList
        set_backPaginationToken].
      rewrite (scan_app_miss _ _ _ _ Hscan), scan_shift.
      destruct (Z.gtb_spec (len (survivors (Chunk resp))) 0) as [Hpos|Hzero].
      * now destruct (scan (survivors (Chunk resp)) anchor 0).
      * assert (Hnil : survivors (Chunk resp) = []).
        { destruct (survivors (Chunk resp)); [reflexivity|].
          rewrite len_cons in Hzero.
          pose proof (len_nonneg l). lia. }
        now rewrite Hnil.
    + now rewrite (backpaginateRoom_err _ _ _ _ Hans).
Qed.

End ScanFacts.

(** ** What a page request does to client and room *)

Section PageEffects.

Context {reducer : Reducer}.
Implicit Types (m : Client) (r : Room).

(** The room a history request for [amount] events leaves behind. *)
Lemma backpaginateRoom_room m r amount :
  snd (fst (backpaginateRoom m r amount))
  = match older_answer m r amount with
    | Ok resp => concatBackpagination r (Chunk resp) (End_ resp)
    | Err _ => r
    end /\
  fst (fst (backpaginateRoom m r amount))
  = record_request m (older_request r amount).
Proof.
  unfold backpaginateRoom, FetchOlder, older_answer.
  now destruct (serveMessages m (sent m) (ID r) (backPaginationToken r) amount).
Qed.

(** The shape of every run of [getBackwardEventRange], whatever the
    arguments: at most one history request, and a slice of the timeline it
    leaves behind whose upper bound is at most [number] above the lower. *)
Lemma getBackwardEventRange_shape m r a o n m' r' events :
  getBackwardEventRange m r a o n = (m', r', events) ->
  ((m' = m /\ r' = r) \/
   exists amount,
     m' = record_request m (older_request r amount) /\
     r' = match older_answer m r amount with
          | Ok resp => concatBackpagination r (Chunk resp) (End_ resp)
          | Err _ => r
          end) /\
  exists low length1,
    events
    = slice (eventList r') low (utils.Min (GoInt.add low n) length1).
Proof.
  unfold getBackwardEventRange.
  destruct (_ >=? len (eventList r)).
  - set (amount := GoInt.sub _ _).
    destruct (backpaginateRoom_room m r amount) as [Hr Hm].
    destruct (backpaginateRoom m r amount) as [[m1 r1] [numNew err]].
    cbn in Hr, Hm.
    destruct err; intros [= <- <- <-]; (split; [right; eauto | eauto]).
  - intros [= <- <- <-]. split; [left; auto | eauto].
Qed.

(** The shape of every run of [GetEventPage], whatever the arguments. *)
Lemma GetEventPage_shape m r anchor offset pageSize m' r' out :
  GetEventPage m r anchor offset pageSize = (m', r', out) ->
  (m' = m /\ r' = r) \/
  exists amount,
    0 <= offset /\
    m' = record_request m (older_request r amount) /\
    r' = match older_answer m r amount with
         | Ok resp => concatBackpagination r (Chunk resp) (End_ resp)
         | Err _ => r
         end.
Proof.
  rewrite GetEventPage_eq.
  destruct (anchor_index r anchor) as [a|]; [|intros [= <- <- <-]; auto].
  destruct (Z.geb_spec offset 0) as [Ho|Ho]; [|intros [= <- <- <-]; auto].
  destruct (getBackwardEventRange m r a offset pageSize)
    as [[m2 r2] events] eqn:Hrun.
  intros [= <- <- <-].
  destruct (getBackwardEventRange_shape _ _ _ _ _ _ _ _ Hrun)
    as [[Hsame|(amount & Hm & Hr)] _]; [auto|].
  right. exists amount. auto.
Qed.

(** X8.  A page request sends at most one request, whatever its arguments:
    nothing, or one history request for this room from its older-edge
    cursor, and that only for an offset that is not negative.  The room
    changes only through the answer to that request: a failed fetch leaves
    it as it was, a successful one delivers the answer's chunk and
    cursor. *)
Theorem GetEventPage_one_request :
  forall m r (anchor : string) (offset pageSize : Z) m' r' out,
    GetEventPage m r anchor offset pageSize = (m', r', out) ->
    (sent m' = sent m /\ r' = r) \/
    exists amount,
      0 <= offset /\
      sent m'
      = sent m ++
        [MessagesRequest (ID r) (backPaginationToken r) amount] /\
      ((exists e, older_answer m r amount = Err e /\ r' = r) \/
       (exists resp,
           older_answer m r amount = Ok resp /\
           r' = concatBackpagination r (Chunk resp) (End_ resp))).
Proof.
  intros m r anchor offset pageSize m' r' out Hcall.
  destruct (GetEventPage_shape _ _ _ _ _ _ _ _ Hcall)
    as [[-> ->]|(amount & Ho & -> & Hr)]; [left; auto|].
  right. exists amount. split; [exact Ho|]. split; [reflexivity|].
  destruct (older_answer m r amount) as [resp|e]; [right|left]; eauto.
Qed.

(** X9.  A page request only ever appends to the timeline, and what it
    appends holds no redaction; the events cached before keep their
    indices; the room state, the newer-edge cursor and the room ID are
    never touched. *)
Theorem GetEventPage_append_only :
  forall m r (anchor : string) (offset pageSize : Z) m' r' out,
    GetEventPage m r anchor offset pageSize = (m', r', out) ->
    (exists appended,
        eventList r' = eventList r ++ appended /\ no_redaction appended) /\
    (forall i event,
        nth_error (eventList r) i = Some event ->
        nth_error (eventList r') i = Some event) /\
    GetState r' = GetState r /\
    snd (GetTokens r') = snd (GetTokens r) /\
    ID r' = ID r.
Proof.
  intros m r anchor offset pageSize m' r' out Hcall.
  assert (Hgrow : exists appended,
    eventList r' = eventList r ++ appended /\ no_redaction appended /\
    GetState r' = GetState r /\ snd (GetTokens r') = snd (GetTokens r) /\
    ID r' = ID r).
  { destruct (GetEventPage_shape _ _ _ _ _ _ _ _ Hcall)
      as [[_ ->]|(amount & _ & _ & ->)].
    - exists []. rewrite app_nil_r. repeat split. constructor.
    - destruct (older_answer m r amount) as [resp|e].
      + exists (survivors (Chunk resp)).
        rewrite concatBackpagination_eq. cbn.
        repeat split. apply survivors_no_redaction.
      + exists []. rewrite app_nil_r. repeat split. constructor. }
  destruct Hgrow as (appended & Happ & Hred & Hstate & Htok & Hid).
  split; [eauto|]. split; [|auto].
  intros i event Hnth. rewrite Happ, nth_error_app1; [exact Hnth|].
  apply nth_error_Some. congruence.
Qed.

End PageEffects.

(** ** What a returned page is, whatever the arithmetic does *)

Section ReturnedPages.

Context {reducer : Reducer}.
Implicit Types (m : Client) (r : Room).

Lemma slice_Some_inv {A : Type} (s : list A) low high page :
  slice s low high = Some page ->
  0 <= low <= high /\ high <= len s /\ page = sub_seq s low high.
Proof.
  unfold slice.
  destruct (Z.leb_spec 0 low), (Z.leb_spec low high),
    (Z.leb_spec high (len s)); cbn; try discriminate.
  intros [= <-]. auto.
Qed.

(** A sum of two values that are not negative wraps to a negative value
    or not at all. *)
Lemma add_nonneg_cases (a b : Z) :
  0 <= a <= GoInt.max_int -> 0 <= b <= GoInt.max_int ->
  GoInt.add a b = a + b \/ GoInt.add a b < 0.
Proof.
  intros Ha Hb. unfold GoInt.add.
  destruct (Z.le_gt_cases (a + b) GoInt.max_int) as [Hfit|Hover].
  - left. apply GoIntFacts.wrap_small. int_bounds. lia.
  - right. destruct (GoIntFacts.wrap_residue (a + b)) as [k Hk].
    pose proof (GoIntFacts.wrap_is_int (a + b)) as Hint.
    rewrite Hk in *. int_bounds. unfold GoInt.modulus in *. lia.
Qed.

(** The backward slice: when it is in range it holds at most [number]
    events. *)
Lemma backward_slice_bound (s : list Event) low n length1 page :
  0 <= n <= GoInt.max_int -> fits s ->
  slice s low (utils.Min (GoInt.add low n) length1) = Some page ->
  len page <= n /\
  exists before after, s = before ++ page ++ after /\ len before = low.
Proof.
  intros Hn Hfit Hslice.
  apply slice_Some_inv in Hslice. destruct Hslice as (Hlow & Hhigh & ->).
  rewrite Min_spec in *.
  assert (Hadd : GoInt.add low n = low + n \/ GoInt.add low n < 0)
    by (apply add_nonneg_cases; int_bounds; lia).
  destruct (sub_seq_contiguous s _ _ Hlow Hhigh)
    as (before & after & E & Hbefore & Hlen).
  split; [lia|]. now exists before, after.
Qed.

(** The forward slice: with a count that is not negative it holds at most
    [number] events. *)
Lemma forward_slice_bound r index offset n page :
  0 <= n <= GoInt.max_int -> fits (eventList r) ->
  getForwardEventRange r index offset n = Some page ->
  len page <= n /\
  exists before after, eventList r = before ++ page ++ after.
Proof.
  intros Hn Hfit. unfold getForwardEventRange.
  pose proof (len_nonneg (eventList r)) as Hlen.
  rewrite Bound_spec.
  set (top := Z.max 0 (Z.min _ _)).
  assert (0 <= top <= len (eventList r)) by (subst top; lia).
  rewrite GoIntFacts.sub_exact by (int_bounds; lia).
  rewrite Max_spec. intros Hslice.
  apply slice_Some_inv in Hslice. destruct Hslice as (Hlow & Hhigh & ->).
  destruct (sub_seq_contiguous (eventList r) _ _ Hlow Hhigh)
    as (before & after & E & _ & Hpage).
  split; [lia|]. now exists before, after.
Qed.

(** X10.  Whatever [GetEventPage] returns for a page size that is not
    negative is a contiguous run of the timeline it leaves behind, in
    timeline order, of at most [pageSize] events; this needs no bound on
    the offset or the anchor: where the index arithmetic wraps the call
    either panics or still returns such a run. *)
Theorem GetEventPage_returns_a_run :
  forall m r (anchor : string) (offset pageSize : Z) m' r' page err,
    GetEventPage m r anchor offset pageSize = (m', r', Returns page err) ->
    0 <= pageSize <= GoInt.max_int ->
    fits (eventList r') ->
    len page <= pageSize /\
    exists before after, eventList r' = before ++ page ++ after.
Proof.
  intros m r anchor offset pageSize m' r' page err Hcall Hn Hfit.
  rewrite GetEventPage_eq in Hcall.
  destruct (anchor_index r anchor) as [a|].
  2:{ injection Hcall as <- <- <- <-. split; [rewrite len_nil; lia|].
      now exists [], (eventList r). }
  destruct (Z.geb_spec offset 0) as [Ho|Ho].
  - destruct (getBackwardEventRange m r a offset pageSize)
      as [[m2 r2] events] eqn:Hrun.
    destruct (getBackwardEventRange_shape _ _ _ _ _ _ _ _ Hrun)
      as [_ (low & length1 & Hev)].
    destruct events as [events|]; [|discriminate].
    injection Hcall as <- <- <- <-.
    destruct (backward_slice_bound _ _ _ _ _ Hn Hfit (eq_sym Hev))
      as [Hlen (before & after & E & _)].
    split; [exact Hlen|]. now exists before, after.
  - destruct (getForwardEventRange r a (GoInt.neg offset) pageSize)
      as [events|] eqn:Hrun; [|discriminate].
    injection Hcall as <- <- <- <-.
    apply (forward_slice_bound _ _ _ _ _ Hn Hfit Hrun).
Qed.

(** X11.  On a timeline without redactions a page request leaves a
    timeline without redactions and returns a page without redactions,
    whatever its arguments and whatever the server answers. *)
Theorem GetEventPage_no_redaction :
  forall m r (anchor : string) (offset pageSize : Z) m' r' out,
    no_redaction (eventList r) ->
    GetEventPage m r anchor offset pageSize = (m', r', out) ->
    no_redaction (eventList r') /\
    forall page err, out = Returns page err -> no_redaction page.
Proof.
  intros m r anchor offset pageSize m' r' out Hclean Hcall.
  assert (Hclean' : no_redaction (eventList r')).
  { destruct (GetEventPage_shape _ _ _ _ _ _ _ _ Hcall)
      as [[_ ->]|(amount & _ & _ & ->)]; [assumption|].
    destruct (older_answer m r amount) as [resp|e]; [|assumption].
    rewrite concatBackpagination_eq. cbn.
    apply no_redaction_app. split; [assumption|].
    apply survivors_no_redaction. }
  split; [exact Hclean'|].
  intros page err ->.
  rewrite GetEventPage_eq in Hcall.
  destruct (anchor_index r anchor) as [a|].
  2:{ injection Hcall as _ _ <- _. constructor. }
  destruct (Z.geb_spec offset 0) as [Ho|Ho].
  - destruct (getBackwardEventRange m r a offset pageSize)
      as [[m2 r2] events] eqn:Hrun.
    destruct (getBackwardEventRange_shape _ _ _ _ _ _ _ _ Hrun)
      as [_ (low & length1 & Hev)].
    destruct events as [events|]; [|discriminate].
    injection Hcall as <- <- <- <-.
    apply eq_sym, slice_Some_inv in Hev. destruct Hev as (_ & _ & ->).
    now apply no_redaction_sub_seq.
  - destruct (getForwardEventRange r a (GoInt.neg offset) pageSize)
      as [events|] eqn:Hrun; [|discriminate].
    injection Hcall as <- <- <- <-.
    unfold getForwardEventRange in Hrun.
    apply slice_Some_inv in Hrun. destruct Hrun as (_ & _ & ->).
    now apply no_redaction_sub_seq.
Qed.

(** X12.  A page request never invalidates an anchor: an identifier that
    resolved to an index before the call, of this request or of any
    other, resolves to the same index after it. *)
Theorem GetEventPage_keeps_anchors :
  forall m r (anchor : string) (offset pageSize : Z) m' r' out
         (other : string) (index : Z),
    GetEventPage m r anchor offset pageSize = (m', r', out) ->
    anchor_index r other = Some index ->
    anchor_index r' other = Some index.
Proof.
  intros m r anchor offset pageSize m' r' out other index Hcall.
  unfold anchor_index. destruct (String.eqb other ""); [auto|].
  intros Hscan.
  destruct (GetEventPage_shape _ _ _ _ _ _ _ _ Hcall)
    as [[_ ->]|(amount & _ & _ & ->)]; [assumption|].
  destruct (older_answer m r amount) as [resp|e]; [|assumption].
  rewrite concatBackpagination_eq. cbn.
  now apply scan_app_l.
Qed.

End ReturnedPages.

(** ** Windows inside the cache *)

Section Windows.

Context {reducer : Reducer}.
Implicit Types (m : Client) (r : Room).

Lemma firstn_plus {A : Type} (n k : nat) (s : list A) :
  firstn (n + k) s = firstn n s ++ firstn k (skipn n s).
Proof.
  rewrite <- (firstn_skipn n (firstn (n + k) s)) at 1.
  rewrite firstn_firstn, <- firstn_skipn_comm.
  now replace (Nat.min n (n + k)) with n by lia.
Qed.

(** Adjacent runs of a list join. *)
Lemma sub_seq_join {A : Type} (s : list A) a b c :
  0 <= a <= b -> b <= c ->
  sub_seq s a b ++ sub_seq s b c = sub_seq s a c.
Proof.
  intros Hab Hbc. unfold sub_seq.
  replace (Z.to_nat (c - a)) with (Z.to_nat (b - a) + Z.to_nat (c - b))%nat
    by lia.
  rewrite firstn_plus, skipn_skipn.
  now replace (Z.to_nat (b - a) + Z.to_nat a)%nat with (Z.to_nat b) by lia.
Qed.

(** A run behind a prefix is the run of the rest. *)
Lemma sub_seq_app_r {A : Type} (front s : list A) a b :
  0 <= a ->
  sub_seq (front ++ s) (len front + a) (len front + b) = sub_seq s a b.
Proof.
  intros Ha. unfold sub_seq, len.
  set (k := List.length front).
  replace (Z.of_nat k + b - (Z.of_nat k + a)) with (b - a) by lia.
  rewrite skipn_app.
  rewrite skipn_all2 by (subst k; lia).
  fold k.
  now replace (Z.to_nat (Z.of_nat k + a) - k)%nat with (Z.to_nat a) by lia.
Qed.

Lemma GetEventPage_grows m r anchor offset pageSize m' r' out :
  GetEventPage m r anchor offset pageSize = (m', r', out) ->
  exists appended, eventList r' = eventList r ++ appended.
Proof.
  intros Hcall.
  destruct (GetEventPage_shape _ _ _ _ _ _ _ _ Hcall)
    as [[_ ->]|(amount & _ & _ & ->)].
  - exists []. now rewrite app_nil_r.
  - destruct (older_answer m r amount) as [resp|e].
    + rewrite concatBackpagination_eq. cbn. eauto.
    + exists []. now rewrite app_nil_r.
Qed.

Lemma anchor_index_app r r' anchor index appended :
  eventList r' = eventList r ++ appended ->
  anchor_index r anchor = Some index ->
  anchor_index r' anchor = Some index.
Proof.
  unfold anchor_index. intros ->.
  destruct (String.eqb anchor ""); [auto|]. apply scan_app_l.
Qed.

(** A backward request whose window lies inside the cache gets exactly
    that window, whether it fetches or not and whatever the fetch
    brings. *)
Lemma GetEventPage_backward_window m r anchor a offset n m' r' out :
  anchor_index r anchor = Some a ->
  0 <= offset -> 0 <= n ->
  neededDepth a offset n <= GoInt.max_int ->
  a + offset + n <= len (eventList r) ->
  GetEventPage m r anchor offset n = (m', r', out) ->
  fits (eventList r') ->
  out = Returns (sub_seq (eventList r) (a + offset) (a + offset + n)) None.
Proof.
  intros Hanchor Ho Hn Hsum Hin Hcall Hfit.
  destruct (anchor_index_bounds _ _ _ Hanchor) as [Ha _].
  destruct (GetEventPage_grows _ _ _ _ _ _ _ _ Hcall) as [appended Happ].
  rewrite GetEventPage_eq, Hanchor in Hcall.
  destruct (Z.geb_spec offset 0) as [_|]; [|lia].
  destruct (getBackwardEventRange m r a offset n)
    as [[m2 r2] events] eqn:Hrun.
  injection Hcall as <- <- <-.
  assert (Hex : backward_exact a offset n) by (repeat split; assumption).
  destruct (backward_run _ _ _ _ _ _ _ _ Hex Hrun Hfit) as (_ & _ & _ & ->).
  cbn [of_range]. do 2 f_equal.
  unfold backward_page, backward_end, backward_start.
  rewrite Happ, len_app. pose proof (len_nonneg appended).
  rewrite !Z.min_l by lia.
  apply sub_seq_app_l; lia.
Qed.

(** X13.  A request whose window
    [[anchorIndex + offset, anchorIndex + offset + pageSize)] lies inside
    the cached timeline returns exactly the events of that window, a full
    page, for either sign of the offset; towards older events this holds
    whether the call fetches or not and whatever the server answers. *)
Theorem GetEventPage_window_inside :
  forall m r (anchor : string) (anchorIndex offset pageSize : Z) m' r' out,
    anchor_index r anchor = Some anchorIndex ->
    0 <= pageSize ->
    0 <= anchorIndex + offset ->
    anchorIndex + offset + pageSize <= len (eventList r) ->
    GoInt.min_int <= offset ->
    (0 <= offset ->
     neededDepth anchorIndex offset pageSize <= GoInt.max_int) ->
    GetEventPage m r anchor offset pageSize = (m', r', out) ->
    fits (eventList r') ->
    let window :=
      sub_seq (eventList r) (anchorIndex + offset)
              (anchorIndex + offset + pageSize) in
    out = Returns window None /\ len window = pageSize.
Proof.
  intros m r anchor a offset n m' r' out Hanchor Hn Hlow Hhigh Hmin Hsum
         Hcall Hfit window.
  assert (Hlen : len window = n).
  { destruct (sub_seq_contiguous (eventList r) (a + offset) (a + offset + n))
      as (_ & _ & _ & _ & E); [lia | lia |]. subst window. lia. }
  split; [|exact Hlen].
  destruct (Z.lt_ge_cases offset 0) as [Hneg|Hpos].
  - destruct (anchor_index_bounds _ _ _ Hanchor) as [Ha _].
    rewrite GetEventPage_eq, Hanchor in Hcall.
    destruct (Z.geb_spec offset 0) as [|_]; [lia|].
    injection Hcall as <- <- <-.
    assert (Hfit' := Hfit). unfold fits in Hfit'.
    rewrite forward_exact by (int_bounds; first [assumption | lia]).
    cbn [of_range]. do 2 f_equal.
    unfold forward_page, forward_bottom, forward_top. subst window.
    f_equal; lia.
  - eapply GetEventPage_backward_window; eauto.
Qed.

(** X14.  Adjacent pages towards older events tile the timeline: when the
    window of both pages lies inside the cache, the page at [offset] of
    size [first] followed by the page at [offset + first] of size [second],
    requested one after the other, are together the events at positions
    [anchorIndex + offset] up to [anchorIndex + offset + first + second],
    with no gap and no overlap, whatever was fetched in between. *)
Theorem GetEventPage_pages_tile :
  forall m r (anchor : string) (anchorIndex offset first second : Z)
         m1 r1 out1 m2 r2 out2,
    anchor_index r anchor = Some anchorIndex ->
    0 <= offset -> 0 <= first -> 0 <= second ->
    neededDepth anchorIndex offset (first + second) <= GoInt.max_int ->
    anchorIndex + offset + first + second <= len (eventList r) ->
    GetEventPage m r anchor offset first = (m1, r1, out1) ->
    GetEventPage m1 r1 anchor (offset + first) second = (m2, r2, out2) ->
    fits (eventList r2) ->
    exists page1 page2,
      out1 = Returns page1 None /\ out2 = Returns page2 None /\
      page1 ++ page2
      = sub_seq (eventList r) (anchorIndex + offset)
                (anchorIndex + offset + first + second).
Proof.
  intros m r anchor a o n k m1 r1 out1 m2 r2 out2 Hanchor Ho Hn Hk Hsum Hin
         Hcall1 Hcall2 Hfit2.
  destruct (anchor_index_bounds _ _ _ Hanchor) as [Ha _].
  destruct (GetEventPage_grows _ _ _ _ _ _ _ _ Hcall1) as [app1 Happ1].
  destruct (GetEventPage_grows _ _ _ _ _ _ _ _ Hcall2) as [app2 Happ2].
  assert (Hfit1 : fits (eventList r1))
    by (rewrite Happ2 in Hfit2; eapply fits_prefix, Hfit2).
  pose proof (anchor_index_app _ _ _ _ _ Happ1 Hanchor) as Hanchor1.
  pose proof (len_nonneg app1) as Hnn.
  assert (Hsum1 : neededDepth a o n <= GoInt.max_int) by (int_bounds; lia).
  assert (Hin1 : a + o + n <= len (eventList r)) by lia.
  assert (Hsum2 : neededDepth a (o + n) k <= GoInt.max_int)
    by (int_bounds; lia).
  assert (Hin2 : a + (o + n) + k <= len (eventList r1))
    by (rewrite Happ1, len_app; lia).
  assert (Ho2 : 0 <= o + n) by lia.
  pose proof (GetEventPage_backward_window _ _ _ _ _ _ _ _ _
                Hanchor Ho Hn Hsum1 Hin1 Hcall1 Hfit1) as Hout1.
  pose proof (GetEventPage_backward_window _ _ _ _ _ _ _ _ _
                Hanchor1 Ho2 Hk Hsum2 Hin2 Hcall2 Hfit2) as Hout2.
  do 2 eexists. split; [exact Hout1|]. split; [exact Hout2|].
  rewrite Happ1, sub_seq_app_l by lia.
  replace (a + (o + n)) with (a + o + n) by lia.
  apply sub_seq_join; lia.
Qed.

(** X15.  Towards newer events the window is cut off at the newest event,
    not moved: when it would start before index 0, the page is the front
    of the timeline up to [anchorIndex + offset + pageSize], shorter than
    [pageSize], and empty as soon as that bound is not positive; there is
    no error and nothing is fetched. *)
Theorem GetEventPage_newest_edge :
  forall m r (anchor : string) (anchorIndex offset pageSize : Z),
    anchor_index r anchor = Some anchorIndex ->
    anchorIndex + offset < 0 ->
    GoInt.min_int <= offset ->
    0 < pageSize <= GoInt.max_int ->
    fits (eventList r) ->
    let kept :=
      Z.max 0 (Z.min (anchorIndex + offset + pageSize)
                     (len (eventList r))) in
    GetEventPage m r anchor offset pageSize
    = (m, r, Returns (sub_seq (eventList r) 0 kept) None) /\
    len (sub_seq (eventList r) 0 kept) = kept /\
    kept < pageSize /\
    (anchorIndex + offset + pageSize <= 0 ->
     sub_seq (eventList r) 0 kept = []).
Proof.
  intros m r anchor a offset n Hanchor Hlow Hmin Hn Hfit kept.
  destruct (anchor_index_bounds _ _ _ Hanchor) as [Ha Hale].
  pose proof (len_nonneg (eventList r)) as Hlen.
  assert (Hkept : 0 <= kept <= len (eventList r)) by (subst kept; lia).
  split; [|split; [|split]].
  - rewrite GetEventPage_eq, Hanchor.
    destruct (Z.geb_spec offset 0) as [|_]; [lia|].
    rewrite forward_exact by (int_bounds; first [assumption | lia]).
    cbn [of_range]. do 3 f_equal.
    unfold forward_page, forward_bottom, forward_top.
    replace (a + n - - offset) with (a + offset + n) by lia.
    fold kept. f_equal. subst kept. lia.
  - destruct (sub_seq_contiguous (eventList r) 0 kept)
      as (_ & _ & _ & _ & E); lia.
  - subst kept. lia.
  - intros Hout. replace kept with 0 by (subst kept; lia). reflexivity.
Qed.

End Windows.

(** ** The empty timeline *)

Section EmptyTimeline.

Context {reducer : Reducer}.
Implicit Types (m : Client) (r : Room).


End EmptyTimeline.

(** ** Anchors under live delivery *)

Section LiveDelivery.

Context {reducer : Reducer}.
Implicit Types (m : Client) (r : Room).

Lemma concatForwardPagination_timeline r newEvents newToken :
  eventList (concatForwardPagination r newEvents newToken)
  = rev (survivors newEvents) ++ eventList r.
Proof. now rewrite concatForwardPagination_eq. Qed.

Lemma len_rev {A : Type} (s : list A) : len (rev s) = len s.
Proof. unfold len. now rewrite length_rev. Qed.

(** X17.  A live delivery moves a cached anchor towards older indices by
    the number of events it puts in front, provided none of them carries
    the anchor's ID. *)
Theorem concatForwardPagination_shifts_anchor :
  forall r (newEvents : list Event) (newToken anchor : string) (index : Z),
    scan (eventList r) anchor 0 = Some index ->
    (forall event,
        In event (survivors newEvents) -> gomatrix.ID event <> anchor) ->
    scan (eventList (concatForwardPagination r newEvents newToken)) anchor 0
    = Some (index + len (survivors newEvents)).
Proof.
  intros r newEvents newToken anchor index Hscan Hfresh.
  rewrite concatForwardPagination_timeline.
  assert (Hmiss : scan (rev (survivors newEvents)) anchor 0 = None).
  { apply scan_None. intros event Hin. apply Hfresh. now apply in_rev. }
  rewrite (scan_app_miss _ _ _ _ Hmiss), scan_shift, Hscan, len_rev.
  cbn. f_equal. lia.
Qed.

(** X18.  A page anchored at an event is the same before and after a live
    delivery: when the window of a backward request lies inside the cache
    and no delivered event carries the anchor's ID, the request returns
    the same events on the room as it was and on the room after the
    delivery, although every index has moved. *)
Theorem anchored_page_survives_delivery :
  forall m r (anchor : string) (index offset pageSize : Z)
         (newEvents : list Event) (newToken : string)
         m1 r1 out1 m2 m3 r3 out3,
    String.eqb anchor "" = false ->
    scan (eventList r) anchor 0 = Some index ->
    (forall event,
        In event (survivors newEvents) -> gomatrix.ID event <> anchor) ->
    0 <= offset -> 0 <= pageSize ->
    index + offset + pageSize <= len (eventList r) ->
    neededDepth (index + len (survivors newEvents)) offset pageSize
    <= GoInt.max_int ->
    GetEventPage m r anchor offset pageSize = (m1, r1, out1) ->
    fits (eventList r1) ->
    GetEventPage m2 (concatForwardPagination r newEvents newToken)
                 anchor offset pageSize = (m3, r3, out3) ->
    fits (eventList r3) ->
    out1 = out3 /\
    out1 = Returns (sub_seq (eventList r) (index + offset)
                            (index + offset + pageSize)) None.
Proof.
  intros m r anchor i o n newEvents newToken m1 r1 out1 m2 m3 r3 out3
         Hne Hscan Hfresh Ho Hn Hin Hsum Hcall1 Hfit1 Hcall3 Hfit3.
  pose proof (len_nonneg (survivors newEvents)) as Hnew.
  pose proof (scan_bounds _ _ _ _ Hscan) as Hi.
  set (r2 := concatForwardPagination r newEvents newToken) in *.
  assert (Hanchor : anchor_index r anchor = Some i)
    by (unfold anchor_index; now rewrite Hne).
  assert (Hanchor2 :
    anchor_index r2 anchor = Some (i + len (survivors newEvents))).
  { unfold anchor_index. rewrite Hne. subst r2.
    rewrite concatForwardPagination_timeline.
    assert (Hmiss : scan (rev (survivors newEvents)) anchor 0 = None).
    { apply scan_None. intros event Hev. apply Hfresh. now apply in_rev. }
    rewrite (scan_app_miss _ _ _ _ Hmiss), scan_shift, Hscan, len_rev.
    cbn. f_equal. lia. }
  assert (Htimeline : eventList r2 = rev (survivors newEvents) ++ eventList r)
    by apply concatForwardPagination_timeline.
  assert (Hsum1 : neededDepth i o n <= GoInt.max_int) by (int_bounds; lia).
  assert (Hin2 : i + len (survivors newEvents) + o + n <= len (eventList r2))
    by (rewrite Htimeline, len_app, len_rev; lia).
  pose proof (GetEventPage_backward_window _ _ _ _ _ _ _ _ _
                Hanchor Ho Hn Hsum1 Hin Hcall1 Hfit1) as Hout1.
  pose proof (GetEventPage_backward_window _ _ _ _ _ _ _ _ _
                Hanchor2 Ho Hn Hsum Hin2 Hcall3 Hfit3) as Hout3.
  split; [|exact Hout1].
  rewrite Hout1, Hout3, Htimeline.
  apply f_equal2; [|reflexivity]. symmetry.
  rewrite <- (len_rev (survivors newEvents)).
  replace (i + len (rev (survivors newEvents)) + o)
    with (len (rev (survivors newEvents)) + (i + o)) by lia.
  replace (len (rev (survivors newEvents)) + (i + o) + n)
    with (len (rev (survivors newEvents)) + (i + o + n)) by lia.
  apply sub_seq_app_r. lia.
Qed.

End LiveDelivery.

(** ** A freshly attached room *)

Section FreshRoom.

Context {reducer : Reducer}.
Implicit Types (m : Client) (r : Room).

Lemma set_latestRoomState_same r :
  set_latestRoomState r (latestRoomState r) = r.
Proof. now destruct r. Qed.

(** The pass of [NewRoom] over the state events only folds them into the
    room state. *)
Lemma state_pass state : forall room : Room,
  fold_left
    (fun room event =>
       set_latestRoomState room
         (UpdateOnEvent (latestRoomState room) event true))
    state room
  = set_latestRoomState room
      (fold_left (fun s event => UpdateOnEvent s event true)
                 state (latestRoomState room)).
Proof.
  induction state as [|event rest IH]; intros room; cbn [fold_left].
  - now rewrite set_latestRoomState_same.
  - now rewrite IH.
Qed.

(** What a successful initial sync makes of [NewRoom]. *)
Lemma NewRoom_ok m roomID resp :
  serveInitialSync m (sent m) roomID 256 = Ok resp ->
  NewRoom m roomID
  = (record_request m (InitialSyncRequest roomID 256),
     Ok (synced_room (record_request m (InitialSyncRequest roomID 256))
                     roomID resp)).
Proof.
  intros Hresp. unfold NewRoom, RoomInitialSync.
  change RoomInitialSyncLimit with 256. rewrite Hresp.
  rewrite state_pass, NewRoom_loop, app_nil_r. reflexivity.
Qed.

(** X19.  [NewRoom] sends one initial-sync request, for 256 events,
    whatever comes of it.  A failed sync gives back the error and no
    room.  A successful one gives a room with the requested ID whose
    older-edge cursor is the start and whose newer-edge cursor is the end
    of the delivered chunk, and whose state is the fresh room state with
    the delivered state events, and only them, applied in order as
    initial; no event of the chunk is applied to the state. *)
Theorem NewRoom_run :
  forall m (roomID : string),
    let m' := record_request m (InitialSyncRequest roomID 256) in
    NewRoom m roomID
    = (m',
       match serveInitialSync m (sent m) roomID 256 with
       | Err e => Err e
       | Ok resp => Ok (synced_room m' roomID resp)
       end).
Proof.
  intros m roomID m'. unfold NewRoom, RoomInitialSync.
  change RoomInitialSyncLimit with 256.
  destruct (serveInitialSync m (sent m) roomID 256) as [resp|e];
    [|reflexivity].
  rewrite state_pass, NewRoom_loop, app_nil_r. reflexivity.
Qed.

(** X20.  Right after [NewRoom] an identifier resolves exactly when it is
    the ID of a redaction of the delivered chunk: every other event of the
    chunk, the messages among them, is unknown to the room, and a page
    request anchored at it fails without a fetch. *)
Theorem NewRoom_knows_only_redactions :
  forall m (roomID : string) (resp : RespInitialSync) m1 room
         (anchor : string),
    serveInitialSync m (sent m) roomID 256 = Ok resp ->
    NewRoom m roomID = (m1, Ok room) ->
    String.eqb anchor "" = false ->
    let chunk := Chunk (Messages resp) in
    (anchor_index room anchor = None <->
     forall event,
       In event chunk -> gomatrix.Type_ event = "m.room.redaction" ->
       gomatrix.ID event <> anchor) /\
    (anchor_index room anchor = None ->
     forall m' (offset pageSize : Z),
       GetEventPage m' room anchor offset pageSize
       = (m', room, Returns [] (Some "Could not find event"))).
Proof.
  intros m roomID resp m1 room anchor Hresp Hnew Hne chunk.
  rewrite (NewRoom_ok _ _ _ Hresp) in Hnew. injection Hnew as <- <-.
  assert (Hidx : anchor_index (synced_room
                   (record_request m (InitialSyncRequest roomID 256))
                   roomID resp) anchor
                 = scan (rev (redactions chunk)) anchor 0)
    by (unfold anchor_index; now rewrite Hne).
  split.
  - rewrite Hidx, scan_None. split.
    + intros H event Hin Htype. apply H. rewrite <- in_rev.
      apply redactions_In. auto.
    + intros H event Hin. rewrite <- in_rev in Hin.
      apply redactions_In in Hin. destruct Hin. auto.
  - intros Hmiss m' offset pageSize.
    rewrite GetEventPage_eq. now rewrite Hmiss.
Qed.

End FreshRoom.

(** ** The room summary *)

Section Summary.

Context {reducer : Reducer} {reader : RoomStateReader}.
Implicit Types (m : Client) (r : Room).

(** X21.  The summary names the room itself and reads nothing but the
    room state: no page request and no delivery of older events changes
    it, whatever the server answers, and a live delivery changes it only
    through the state its surviving events are folded into. *)
Theorem RoomInfo_unchanged_by_paging :
  forall m r (anchor : string) (offset pageSize : Z) m' r' out,
    GetEventPage m r anchor offset pageSize = (m', r', out) ->
    RoomInfo r' = RoomInfo r /\
    info.RoomID (RoomInfo r) = ID r /\
    (forall (oldEvents : list Event) (token : string),
        RoomInfo (concatBackpagination r oldEvents token) = RoomInfo r) /\
    (forall (newEvents : list Event) (token : string),
        RoomInfo (concatForwardPagination r newEvents token)
        = RoomInfo
            (set_latestRoomState r
               (fold_left (fun s event => UpdateOnEvent s event false)
                          (survivors newEvents) (latestRoomState r)))).
Proof.
  intros m r anchor offset pageSize m' r' out Hcall.
  assert (Hback : forall oldEvents token,
    RoomInfo (concatBackpagination r oldEvents token) = RoomInfo r).
  { intros oldEvents token. now rewrite concatBackpagination_eq. }
  split; [|split; [reflexivity|split; [exact Hback|]]].
  - destruct (GetEventPage_shape _ _ _ _ _ _ _ _ Hcall)
      as [[_ ->]|(amount & _ & _ & ->)]; [reflexivity|].
    destruct (older_answer m r amount); [apply Hback|reflexivity].
  - intros newEvents token. now rewrite concatForwardPagination_eq.
Qed.

End Summary.

(** ** The properties on sample rooms *)

Lemma concat_no_redaction_witness :
  no_redaction (eventList (concatBackpagination two_cached older_chunk "T2")) /\
  no_redaction
    (eventList (concatForwardPagination two_cached older_chunk "T9")).
Proof.
  split.
  - exact (proj1 (concat_no_redaction two_cached older_chunk "T2"
                    ltac:(repeat constructor))).
  - exact (proj2 (concat_no_redaction two_cached older_chunk "T9"
                    ltac:(repeat constructor))).
Defined.

Lemma findEventIndex_first_match_witness :
  0 <= 1 < len (eventList two_cached) /\
  exists event,
    nth_error (eventList two_cached) 1 = Some event /\
    gomatrix.ID event = "$y".
Proof.
  destruct (findEventIndex_first_match
              server_down two_cached "$y" server_down two_cached 1 true
              eq_refl) as (_ & _ & Hhit & _).
  destruct (Hhit eq_refl) as (Hrange & event & Hnth & Hid & _).
  split; [exact Hrange|]. exists event. split; [exact Hnth | exact Hid].
Defined.

Lemma GetEventPage_one_request_witness :
  let call := GetEventPage (server_with older_chunk) two_cached "$y" 0 5 in
  (sent (fst (fst call)) = [] /\ snd (fst call) = two_cached) \/
  exists amount,
    0 <= 0 /\
    sent (fst (fst call)) = [MessagesRequest "!room:example.org" "T1" amount] /\
    ((exists e,
         older_answer (server_with older_chunk) two_cached amount = Err e /\
         snd (fst call) = two_cached) \/
     (exists resp,
         older_answer (server_with older_chunk) two_cached amount = Ok resp /\
         snd (fst call)
         = concatBackpagination two_cached (Chunk resp) (End_ resp))).
Proof.
  intros call.
  exact (GetEventPage_one_request
           (server_with older_chunk) two_cached "$y" 0 5
           (fst (fst call)) (snd (fst call)) (snd call) eq_refl).
Defined.

Lemma GetEventPage_append_only_witness :
  let call := GetEventPage (server_with older_chunk) two_cached "$y" 0 5 in
  GetState (snd (fst call)) = [] /\
  snd (GetTokens (snd (fst call))) = "T0" /\
  ID (snd (fst call)) = "!room:example.org".
Proof.
  intros call.
  destruct (GetEventPage_append_only
              (server_with older_chunk) two_cached "$y" 0 5
              (fst (fst call)) (snd (fst call)) (snd call) eq_refl)
    as (_ & _ & Hstate & Htoken & Hid).
  exact (conj Hstate (conj Htoken Hid)).
Defined.

Lemma GetEventPage_returns_a_run_witness :
  len [message "$y"; message "$10"; message "$11"; message "$12"] <= 5 /\
  exists before after,
    [message "$x"; message "$y"; message "$10"; message "$11"; message "$12"]
    = before ++
      [message "$y"; message "$10"; message "$11"; message "$12"] ++ after.
Proof.
  exact (GetEventPage_returns_a_run
           (server_with older_chunk) two_cached "$y" 0 5
           (record_request (server_with older_chunk)
              (older_request two_cached 36))
           (concatBackpagination two_cached older_chunk "T2")
           [message "$y"; message "$10"; message "$11"; message "$12"] None
           eq_refl
           ltac:(unfold GoInt.max_int; lia)
           ltac:(apply Z.leb_le; reflexivity)).
Defined.

Lemma GetEventPage_no_redaction_witness :
  no_redaction
    [message "$x"; message "$y"; message "$10"; message "$11"; message "$12"].
Proof.
  exact (proj1 (GetEventPage_no_redaction
                  (server_with older_chunk) two_cached "$y" 0 5
                  (record_request (server_with older_chunk)
                     (older_request two_cached 36))
                  (concatBackpagination two_cached older_chunk "T2")
                  (Returns [message "$y"; message "$10"; message "$11";
                            message "$12"] None)
                  ltac:(repeat constructor) eq_refl)).
Defined.

Lemma GetEventPage_keeps_anchors_witness :
  anchor_index (concatBackpagination two_cached older_chunk "T2") "$y"
  = Some 1.
Proof.
  exact (GetEventPage_keeps_anchors
           (server_with older_chunk) two_cached "" 0 5
           (record_request (server_with older_chunk)
              (older_request two_cached 35))
           (concatBackpagination two_cached older_chunk "T2")
           (Returns [message "$x"; message "$y"; message "$10"; message "$11";
                     message "$12"] None)
           "$y" 1 eq_refl eq_refl).
Defined.

Lemma GetEventPage_window_inside_witness :
  snd (GetEventPage server_down two_cached "$x" 1 1)
  = Returns [message "$y"] None /\
  len [message "$y"] = 1.
Proof.
  exact (GetEventPage_window_inside
           server_down two_cached "$x" 0 1 1
           (fst (fst (GetEventPage server_down two_cached "$x" 1 1)))
           (snd (fst (GetEventPage server_down two_cached "$x" 1 1)))
           (snd (GetEventPage server_down two_cached "$x" 1 1))
           eq_refl ltac:(lia) ltac:(lia)
           ltac:(apply Z.leb_le; reflexivity)
           ltac:(unfold GoInt.min_int; lia)
           ltac:(intros _; unfold neededDepth, GoInt.max_int; lia)
           eq_refl
           ltac:(apply Z.leb_le; reflexivity)).
Defined.

Lemma GetEventPage_pages_tile_witness :
  let call1 := GetEventPage (server_with older_chunk) three_cached "$x" 0 1 in
  let call2 :=
    GetEventPage (fst (fst call1)) (snd (fst call1)) "$x" 1 2 in
  exists page1 page2,
    snd call1 = Returns page1 None /\ snd call2 = Returns page2 None /\
    page1 ++ page2 = [message "$x"; message "$y"; message "$z"].
Proof.
  intros call1 call2.
  exact (GetEventPage_pages_tile
           (server_with older_chunk) three_cached "$x" 0 0 1 2
           (fst (fst call1)) (snd (fst call1)) (snd call1)
           (fst (fst call2)) (snd (fst call2)) (snd call2)
           eq_refl ltac:(lia) ltac:(lia) ltac:(lia)
           ltac:(unfold neededDepth, GoInt.max_int; lia)
           ltac:(apply Z.leb_le; reflexivity)
           eq_refl eq_refl
           ltac:(apply Z.leb_le; reflexivity)).
Defined.

Lemma GetEventPage_newest_edge_witness :
  GetEventPage server_down three_cached "$y" (-2) 2
  = (server_down, three_cached, Returns [message "$x"] None) /\
  len [message "$x"] = 1 /\ 1 < 2.
Proof.
  destruct (GetEventPage_newest_edge
              server_down three_cached "$y" 1 (-2) 2
              eq_refl ltac:(lia)
              ltac:(unfold GoInt.min_int; lia)
              ltac:(unfold GoInt.max_int; lia)
              ltac:(apply Z.leb_le; reflexivity))
    as (Hcall & Hlen & Hshort & _).
  exact (conj Hcall (conj Hlen Hshort)).
Defined.


Lemma concatForwardPagination_shifts_anchor_witness :
  scan (eventList (concatForwardPagination two_cached older_chunk "T9"))
       "$y" 0
  = Some 4.
Proof.
  refine (concatForwardPagination_shifts_anchor
            two_cached older_chunk "T9" "$y" 1 eq_refl _).
  simpl. intros event [<-|[<-|[<-|[]]]]; discriminate.
Defined.

Lemma anchored_page_survives_delivery_witness :
  let call1 := GetEventPage server_down three_cached "$y" 0 2 in
  let call3 :=
    GetEventPage server_down
      (concatForwardPagination three_cached older_chunk "T9") "$y" 0 2 in
  snd call1 = snd call3 /\
  snd call1 = Returns [message "$y"; message "$z"] None.
Proof.
  intros call1 call3.
  refine (anchored_page_survives_delivery
            server_down three_cached "$y" 1 0 2 older_chunk "T9"
            (fst (fst call1)) (snd (fst call1)) (snd call1)
            server_down
            (fst (fst call3)) (snd (fst call3)) (snd call3)
            eq_refl eq_refl _ ltac:(lia) ltac:(lia)
            ltac:(apply Z.leb_le; reflexivity)
            ltac:(apply Z.leb_le; reflexivity)
            eq_refl
            ltac:(apply Z.leb_le; reflexivity)
            eq_refl
            ltac:(apply Z.leb_le; reflexivity)).
  simpl. intros event [<-|[<-|[<-|[]]]]; discriminate.
Defined.

Lemma NewRoom_knows_only_redactions_witness :
  let room :=
    synced_room
      (record_request server_synced
         (InitialSyncRequest "!room:example.org" 256))
      "!room:example.org"
      {| Messages := {| Start := "T1"; Chunk := older_chunk; End_ := "T0" |};
         State := [message "$state"] |} in
  eventList room = [redaction "$r"] /\
  GetEventPage server_down room "$10" 0 5
  = (server_down, room, Returns [] (Some "Could not find event")).
Proof.
  intros room. split; [reflexivity|].
  destruct (NewRoom_knows_only_redactions
              server_synced "!room:example.org"
              {| Messages :=
                   {| Start := "T1"; Chunk := older_chunk; End_ := "T0" |};
                 State := [message "$state"] |}
              (record_request server_synced
                 (InitialSyncRequest "!room:example.org" 256))
              room "$10" eq_refl eq_refl eq_refl) as [_ Hfails].
  exact (Hfails eq_refl server_down 0 5).
Defined.

Lemma RoomInfo_unchanged_by_paging_witness :
  let call := GetEventPage (server_with older_chunk) two_cached "$y" 0 5 in
  RoomInfo (snd (fst call)) = RoomInfo two_cached /\
  info.RoomID (RoomInfo two_cached) = "!room:example.org".
Proof.
  intros call.
  destruct (RoomInfo_unchanged_by_paging
              (server_with older_chunk) two_cached "$y" 0 5
              (fst (fst call)) (snd (fst call)) (snd call) eq_refl)
    as (Hsame & Hid & _).
  exact (conj Hsame Hid).
Defined.

(** ** Page sizes and request sizes *)

Section Sizes.

Context {reducer : Reducer}.
Implicit Types (m : Client) (r : Room).

(** X22.  The size of a page towards older events: as many events as the
    timeline left behind by the call holds from [anchorIndex + offset] on,
    and at most [pageSize]; so the page is full while the timeline reaches
    that far, shrinks at its old end, and is empty, without an error, for
    a start at or beyond that end. *)
Theorem GetEventPage_page_size :
  forall m r (anchor : string) (anchorIndex offset pageSize : Z) m' r' out,
    anchor_index r anchor = Some anchorIndex ->
    0 <= offset -> 0 <= pageSize ->
    neededDepth anchorIndex offset pageSize <= GoInt.max_int ->
    GetEventPage m r anchor offset pageSize = (m', r', out) ->
    fits (eventList r') ->
    exists page,
      out = Returns page None /\
      len page
      = Z.max 0 (Z.min pageSize
                       (len (eventList r') - (anchorIndex + offset))) /\
      (len (eventList r') <= anchorIndex + offset -> page = []).
Proof.
  intros m r anchor a o n m' r' out Hanchor Ho Hn Hsum Hcall Hfit.
  destruct (anchor_index_bounds _ _ _ Hanchor) as [Ha _].
  rewrite GetEventPage_eq, Hanchor in Hcall.
  destruct (Z.geb_spec o 0) as [_|]; [|lia].
  destruct (getBackwardEventRange m r a o n) as [[m2 r2] events] eqn:Hrun.
  injection Hcall as <- <- <-.
  assert (Hex : backward_exact a o n) by (repeat split; assumption).
  destruct (backward_run _ _ _ _ _ _ _ _ Hex Hrun Hfit) as (_ & _ & _ & ->).
  pose proof (backward_bounds (eventList r2) a o n Ha Ho Hn) as [Hb Ht].
  destruct (sub_seq_contiguous (eventList r2) _ _ Hb Ht)
    as (_ & _ & _ & _ & Hlen).
  fold (backward_page (eventList r2) a o n) in Hlen.
  unfold backward_end, backward_start in Hlen, Hb, Ht.
  pose proof (len_nonneg (eventList r2)) as Hnn.
  exists (backward_page (eventList r2) a o n).
  split; [reflexivity|]. split; [lia|].
  intros Hend.
  assert (Hzero : len (backward_page (eventList r2) a o n) = 0) by lia.
  unfold len in Hzero.
  destruct (backward_page (eventList r2) a o n); [reflexivity|].
  cbn in Hzero. lia.
Qed.

(** What [getBackwardEventRange] asks the server for, whatever the
    arguments: the difference of two [int]s of which the larger is the
    first, and the smaller a length. *)
Lemma getBackwardEventRange_amount m r a o n :
  fits (eventList r) ->
  fst (fst (getBackwardEventRange m r a o n)) = m \/
  exists amount,
    0 <= amount <= GoInt.max_int /\
    fst (fst (getBackwardEventRange m r a o n))
    = record_request m (older_request r amount).
Proof.
  intros Hfit. unfold getBackwardEventRange.
  set (delta := GoInt.add _ overcompensateBackpaginationBy).
  assert (Hdelta : GoInt.is_int delta) by apply GoIntFacts.wrap_is_int.
  pose proof (len_nonneg (eventList r)) as Hlen.
  rewrite Z.geb_leb.
  destruct (Z.leb_spec (len (eventList r)) delta) as [Hle|Hlt].
  - right. exists (delta - len (eventList r)).
    split; [int_bounds; lia|].
    rewrite GoIntFacts.sub_exact by (int_bounds; lia).
    destruct (backpaginateRoom_room m r (delta - len (eventList r)))
      as [_ Hm].
    destruct (backpaginateRoom m r (delta - len (eventList r)))
      as [[m1 r1] [numNew err]].
    cbn in Hm. now destruct err.
  - left. reflexivity.
Qed.

(** X23.  A page request never asks the server for a negative number of
    events, whatever its arguments, even those that wrap: every request
    it adds to the log is a history request for this room, from its
    older-edge cursor, with a limit between 0 and the largest [int]. *)
Theorem GetEventPage_request_limit :
  forall m r (anchor : string) (offset pageSize : Z) m' r' out,
    GetEventPage m r anchor offset pageSize = (m', r', out) ->
    fits (eventList r) ->
    forall request,
      In request (sent m') ->
      In request (sent m) \/
      exists limit,
        request = MessagesRequest (ID r) (backPaginationToken r) limit /\
        0 <= limit <= GoInt.max_int.
Proof.
  intros m r anchor offset pageSize m' r' out Hcall Hfit request Hin.
  rewrite GetEventPage_eq in Hcall.
  destruct (anchor_index r anchor) as [a|];
    [|injection Hcall as <- _ _; now left].
  destruct (offset >=? 0); [|injection Hcall as <- _ _; now left].
  destruct (getBackwardEventRange_amount m r a offset pageSize Hfit)
    as [Hm|(amount & Hrange & Hm)];
    destruct (getBackwardEventRange m r a offset pageSize)
      as [[m2 r2] events];
    cbn in Hm; injection Hcall as <- _ _; subst m2.
  - now left.
  - cbn in Hin. apply in_app_or in Hin. destruct Hin as [Hold|[<-|[]]].
    + now left.
    + right. exists amount. split; [reflexivity | exact Hrange].
Qed.

End Sizes.

Lemma GetEventPage_page_size_witness :
  exists page,
    snd (GetEventPage server_down two_cached "$y" 0 5) = Returns page None /\
    len page = 1.
Proof.
  destruct (GetEventPage_page_size
              server_down two_cached "$y" 1 0 5
              (fst (fst (GetEventPage server_down two_cached "$y" 0 5)))
              (snd (fst (GetEventPage server_down two_cached "$y" 0 5)))
              (snd (GetEventPage server_down two_cached "$y" 0 5))
              eq_refl ltac:(lia) ltac:(lia)
              ltac:(unfold neededDepth, GoInt.max_int; lia)
              eq_refl
              ltac:(apply Z.leb_le; reflexivity))
    as (page & Hout & Hlen & _).
  exists page. split; [exact Hout | exact Hlen].
Defined.

Lemma GetEventPage_request_limit_witness :
  In (MessagesRequest "!room:example.org" "T1" 36) [] \/
  exists limit,
    MessagesRequest "!room:example.org" "T1" 36
    = MessagesRequest (ID two_cached) (backPaginationToken two_cached) limit /\
    0 <= limit <= GoInt.max_int.
Proof.
  exact (GetEventPage_request_limit
           server_down two_cached "$y" 0 5
           (fst (fst (GetEventPage server_down two_cached "$y" 0 5)))
           (snd (fst (GetEventPage server_down two_cached "$y" 0 5)))
           (snd (GetEventPage server_down two_cached "$y" 0 5))
           eq_refl
           ltac:(apply Z.leb_le; reflexivity)
           (MessagesRequest "!room:example.org" "T1" 36)
           (or_introl eq_refl)).
Defined.
